(** * sec100: rate limiter and FQDN resolution of the Telegram bot

    A shallow embedding of
    - [telegram-bot/services/rate_limiter.py] (class [RateLimiter]) and
    - [telegram-bot/services/ip_resolver.py]
      ([resolve_fqdn], [resolve_multiple_fqdns],
       [get_operator_infrastructure],
       [get_operator_infrastructure_with_all_fqdns]),
    followed by the properties of the infrastructure resolution and
    throttling engine.

    Conventions of the embedding.
    - [time.time()] is an input of every function that reads the clock.
      Timestamps are Python floats; they are modelled as exact rationals
      ([Q]), so float rounding of the subtractions is not represented.
    - [int(x)] on a float truncates toward zero: [Z.quot] on the fraction.
    - A Python function that can raise returns a [Py.result].
    - The DNS lookup ([socket.getaddrinfo]) is an oracle passed as an
      argument; the order in which the thread pool completes its futures
      is a schedule passed as an argument. *)

From Stdlib Require Import ZArith QArith Qround String Ascii List DecimalString Lia Lqa.
From Stdlib Require Import Sorting.Sorted.
From stdpp Require Import gmap strings list sorting.

Local Open Scope Z_scope.

(** ** Python values, exceptions and builtins used by the two modules *)

Module Py.

(** The exceptions the two modules can meet.  All of them are subclasses
    of [Exception]. *)
Inductive exn : Type :=
| StopIteration
| IndexError
| ValueError
| SocketTimeout
| SocketGaierror
| OtherException (name : string).

Inductive result (A : Type) : Type :=
| Returned (a : A)
| Raised (e : exn).
Arguments Returned {A} a.
Arguments Raised {A} e.

#[global] Instance result_ret : MRet result := fun A a => Returned a.

#[global] Instance result_bind : MBind result := fun A B k m =>
  match m with
  | Returned a => k a
  | Raised e => Raised e
  end.

(** [try: body / except ...: handler]: every handler of the two modules
    catches a subclass of [Exception], so the handler sees the exception. *)
Definition try_except {A} (body : result A) (handler : exn -> result A)
  : result A :=
  match body with
  | Returned a => Returned a
  | Raised e => handler e
  end.

(** Dynamically typed return values (only what [check_rate_limit]
    returns: a tuple of a bool and a str). *)
#[warnings="-register-all"] Inductive value : Type :=
| VBool (b : bool)
| VInt (z : Z)
| VStr (s : string)
| VTuple (items : list value).

(** [int(x)] for a float [x]. *)
Definition int_of_float (x : Q) : Z := Z.quot (Qnum x) (Zpos (Qden x)).

(** [str(n)] for an int [n], as an f-string renders it. *)
Definition str_of_int (n : Z) : string :=
  NilZero.string_of_int (Z.to_int n).

(** [a > b] on floats. *)
Definition Qgtb (a b : Q) : bool := negb (Qle_bool a b).

(** [a >= b] on floats. *)
Definition Qgeb (a b : Q) : bool := Qle_bool b a.

(** Order of [str]: by code point, which on UTF-8 bytes is byte order. *)
Definition str_le (a b : string) : Prop := String.leb a b = true.

Definition str_le_dec (a b : string) : {str_le a b} + {~ str_le a b}.
Proof. unfold str_le. destruct (String.leb a b); [left | right]; congruence. Defined.

(** [sorted(l)] for a list of str.  Python's sort is a stable merge sort;
    on strings, whose order is antisymmetric, every sort returns the same
    list (see [sorted_unique] below). *)
Definition sorted (l : list string) : list string :=
  @merge_sort string str_le str_le_dec l.

(** [list(set(l))]: the elements of [l] without repetition, in the
    (unspecified) iteration order of the set. *)
Definition list_of_set (l : list string) : list string :=
  elements (list_to_set l : gset string).

Definition newline : string := String (ascii_of_nat 10) EmptyString.

End Py.

(** ** services/rate_limiter.py *)

Module RateLimiter.
Import Py.

(** The fields set by [__init__].  [user_queries] is a
    [defaultdict(deque)]: user id to the deque of its timestamps, oldest
    at the left. *)
Record t : Type := mk {
  max_per_minute : Z;
  max_per_hour : Z;
  admin_user_ids : gset Z;
  user_queries : gmap Z (list Q)
}.

Definition init (max_per_minute max_per_hour : Z) (admin_user_ids : list Z) : t :=
  mk max_per_minute max_per_hour (list_to_set admin_user_ids) ∅.

Definition with_user_queries (self : t) (uq : gmap Z (list Q)) : t :=
  mk (max_per_minute self) (max_per_hour self) (admin_user_ids self) uq.

Definition is_admin (self : t) (user_id : Z) : bool :=
  bool_decide (user_id ∈ admin_user_ids self).

(** The deque [self.user_queries[user_id]] denotes; a key that is absent
    reads as the empty deque (and [__getitem__] of the defaultdict then
    stores it). *)
Definition timestamps (self : t) (user_id : Z) : list Q :=
  default [] (user_queries self !! user_id).

(** Lines 64-65:
    [while user_timestamps and current_time - user_timestamps[0] > 3600:
       user_timestamps.popleft()] *)
Fixpoint purge (current_time : Q) (user_timestamps : list Q) : list Q :=
  match user_timestamps with
  | [] => []
  | ts0 :: rest =>
      if Qgtb (current_time - ts0) 3600 then purge current_time rest
      else user_timestamps
  end.

(** [sum(1 for ts in timestamps if ts >= bound)] *)
Definition count_since (bound : Q) (timestamps : list Q) : Z :=
  Z.of_nat (length (List.filter (fun ts => Qgeb ts bound) timestamps)).

(** Line 77: [next(ts for ts in reversed(user_timestamps) if ts >= minute_ago)];
    [None] stands for the [StopIteration] of an exhausted generator. *)
Definition next_reversed_since (minute_ago : Q) (user_timestamps : list Q)
  : option Q :=
  List.find (fun ts => Qgeb ts minute_ago) (List.rev user_timestamps).

(** What a [return] statement of [check_rate_limit] is computed from: the
    local variables that its f-string interpolates. *)
Inductive verdict : Type :=
| Allowed
| MinuteLimit (wait_seconds queries_last_minute queries_last_hour : Z)
| HourLimit (wait_seconds wait_minutes queries_last_hour : Z).

(** Lines 56-101 of [check_rate_limit], up to the construction of the
    returned tuple.  The state is returned too: the purge mutates the
    deque in place, also on the paths that raise. *)
Definition check_verdict (self : t) (user_id : Z) (current_time : Q)
  : result verdict * t :=
  if is_admin self user_id then (Returned Allowed, self)
  else
    let user_timestamps := purge current_time (timestamps self user_id) in
    let self' :=
      with_user_queries self (<[user_id := user_timestamps]> (user_queries self)) in
    let minute_ago := (current_time - 60)%Q in
    let queries_last_minute := count_since minute_ago user_timestamps in
    let queries_last_hour := Z.of_nat (length user_timestamps) in
    if max_per_minute self <=? queries_last_minute then
      match next_reversed_since minute_ago user_timestamps with
      | Some oldest_in_minute =>
          let wait_seconds :=
            int_of_float (60 - (current_time - oldest_in_minute))%Q in
          (Returned (MinuteLimit wait_seconds queries_last_minute queries_last_hour),
           self')
      | None => (Raised StopIteration, self')
      end
    else if max_per_hour self <=? queries_last_hour then
      match user_timestamps with
      | oldest_timestamp :: _ =>
          let wait_seconds :=
            int_of_float (3600 - (current_time - oldest_timestamp))%Q in
          let wait_minutes := wait_seconds / 60 in
          (Returned (HourLimit wait_seconds wait_minutes queries_last_hour), self')
      | [] => (Raised IndexError, self')
      end
    else (Returned Allowed, self').

(** The f-string of lines 80-85. *)
Definition minute_message (self : t) (wait_seconds qlm qlh : Z) : string :=
  "⏱️ Rate limit: " +:+ str_of_int (max_per_minute self)
    +:+ " queries/minute exceeded." +:+ newline
    +:+ "Please wait " +:+ str_of_int wait_seconds +:+ " seconds."
    +:+ newline +:+ newline
    +:+ "Your usage: " +:+ str_of_int qlm +:+ " queries in last minute, "
    +:+ str_of_int qlh +:+ " queries in last hour.".

(** The f-string of lines 94-98. *)
Definition hour_message (self : t) (wait_minutes qlh : Z) : string :=
  "⏱️ Rate limit: " +:+ str_of_int (max_per_hour self)
    +:+ " queries/hour exceeded." +:+ newline
    +:+ "Please wait " +:+ str_of_int wait_minutes +:+ " minutes."
    +:+ newline +:+ newline
    +:+ "Your usage: " +:+ str_of_int qlh +:+ " queries in last hour.".

(** The tuple each [return] builds. *)
Definition returned_tuple (self : t) (v : verdict) : value :=
  match v with
  | Allowed => VTuple [VBool true; VStr EmptyString]
  | MinuteLimit wait_seconds qlm qlh =>
      VTuple [VBool false; VStr (minute_message self wait_seconds qlm qlh)]
  | HourLimit _ wait_minutes qlh =>
      VTuple [VBool false; VStr (hour_message self wait_minutes qlh)]
  end.

(** [RateLimiter.check_rate_limit(user_id)], reading [current_time] from
    the clock. *)
Definition check_rate_limit (self : t) (user_id : Z) (current_time : Q)
  : result value * t :=
  let '(r, self') := check_verdict self user_id current_time in
  (v ← r; Returned (returned_tuple self v), self').

(** [RateLimiter.record_query(user_id)]: the admin test only passes; the
    append happens for every caller. *)
Definition record_query (self : t) (user_id : Z) (current_time : Q) : t :=
  with_user_queries self
    (<[user_id := timestamps self user_id ++ [current_time]]> (user_queries self)).

Record user_stats : Type := mk_user_stats {
  stats_queries_last_minute : Z;
  stats_queries_last_hour : Z;
  stats_is_admin : bool
}.

(** [RateLimiter.get_user_stats(user_id)]: reads with [.get], so no key
    is created. *)
Definition get_user_stats (self : t) (user_id : Z) (current_time : Q)
  : user_stats :=
  let user_timestamps := timestamps self user_id in
  let minute_ago := (current_time - 60)%Q in
  let hour_ago := (current_time - 3600)%Q in
  mk_user_stats (count_since minute_ago user_timestamps)
                (count_since hour_ago user_timestamps)
                (is_admin self user_id).

(** [RateLimiter.reset_user(user_id)] *)
Definition reset_user (self : t) (user_id : Z) : t :=
  with_user_queries self (delete user_id (user_queries self)).

Record global_stats : Type := mk_global_stats {
  total_users : Z;
  total_queries_last_hour : Z
}.

(** [RateLimiter.get_global_stats()] *)
Definition get_global_stats (self : t) (current_time : Q) : global_stats :=
  let hour_ago := (current_time - 3600)%Q in
  mk_global_stats
    (Z.of_nat (size (user_queries self)))
    (map_fold (fun _ timestamps total => total + count_since hour_ago timestamps)
              0 (user_queries self)).

(** The public methods, as operations on the limiter's state. *)
Inductive op : Type :=
| CheckRateLimit (user_id : Z)
| RecordQuery (user_id : Z)
| GetUserStats (user_id : Z)
| ResetUser (user_id : Z)
| GetGlobalStats.

(** The state a call leaves.  [get_user_stats] and [get_global_stats]
    only read it. *)
Definition run (self : t) (o : op) (current_time : Q) : t :=
  match o with
  | CheckRateLimit user_id => snd (check_rate_limit self user_id current_time)
  | RecordQuery user_id => record_query self user_id current_time
  | GetUserStats _ => self
  | ResetUser user_id => reset_user self user_id
  | GetGlobalStats => self
  end.

(** A history of calls, each with the clock reading it saw. *)
Definition run_all (self : t) (history : list (op * Q)) : t :=
  foldl (fun s call => run s (fst call) (snd call)) self history.

End RateLimiter.

(** ** services/ip_resolver.py *)

Module IpResolver.
Import Py.

(** The last component of a [getaddrinfo] entry: [(host, port)] for
    IPv4, [(host, port, flowinfo, scope_id)] for IPv6. *)
Inductive sockaddr : Type :=
| SockaddrIn (host : string) (port : Z)
| SockaddrIn6 (host : string) (port flowinfo scope_id : Z).

(** An entry of the list [socket.getaddrinfo] returns:
    [(family, type, proto, canonname, sockaddr)]. *)
Record addrinfo : Type := mk_addrinfo {
  ai_family : Z;
  ai_socktype : Z;
  ai_proto : Z;
  ai_canonname : string;
  ai_sockaddr : sockaddr
}.

(** [info[4][0]] *)
Definition info_address (info : addrinfo) : string :=
  match ai_sockaddr info with
  | SockaddrIn host _ => host
  | SockaddrIn6 host _ _ _ => host
  end.

(** One call of [socket.getaddrinfo(fqdn, None, family=AF_UNSPEC,
    type=SOCK_STREAM)]: the entries, or the exception it raises
    ([socket.timeout], [socket.gaierror], or any other). *)
Definition dns_lookup : Type := string -> result (list addrinfo).

(** The largest whole number of seconds whose count of nanoseconds fits
    the signed 64-bit integer in which the interpreter keeps a timeout. *)
Definition max_timeout : Z := 9223372036.

(** [socket.setdefaulttimeout(timeout)]: a number of seconds that does not
    fit that integer is refused with an [OverflowError], a negative one
    with a [ValueError]. *)
Definition setdefaulttimeout (timeout : Z) : result unit :=
  if (timeout <? - max_timeout) || (max_timeout <? timeout)
  then Raised (OtherException "OverflowError")
  else if timeout <? 0 then Raised ValueError
  else Returned tt.

(** [resolve_fqdn(fqdn, timeout)] *)
Definition resolve_fqdn (getaddrinfo : dns_lookup) (fqdn : string) (timeout : Z)
  : result (list string) :=
  try_except
    (setdefaulttimeout timeout ;;
     addr_info ← getaddrinfo fqdn;
     let ips := sorted (list_of_set (List.map info_address addr_info)) in
     Returned ips)
    (fun e =>
       match e with
       | SocketTimeout => Returned []
       | SocketGaierror => Returned []
       | _ => Returned []
       end).

(** The body of the [for future in as_completed(...)] loop. *)
Definition collect (future_to_fqdn : list (result (list string) * string))
    (results : gmap string (list string)) (future : nat)
  : gmap string (list string) :=
  match future_to_fqdn !! future with
  | Some (outcome, fqdn) =>
      match outcome with
      | Returned ips => <[fqdn := ips]> results
      | Raised _ => <[fqdn := []]> results
      end
  | None => results
  end.

(** [resolve_multiple_fqdns(fqdns, max_workers, timeout)].

    [ThreadPoolExecutor(max_workers)] raises [ValueError] unless
    [max_workers >= 1].  A future is named by its submission index;
    [net i] is what the network answers to the lookup of the [i]-th
    submitted task; [schedule] is the order in which [as_completed]
    yields the futures. *)
Definition resolve_multiple_fqdns (net : nat -> dns_lookup) (schedule : list nat)
    (fqdns : list string) (max_workers timeout : Z)
  : result (gmap string (list string)) :=
  if max_workers <=? 0 then Raised ValueError
  else
    let future_to_fqdn :=
      imap (fun i fqdn => (resolve_fqdn (net i) fqdn timeout, fqdn)) fqdns in
    Returned (foldl (collect future_to_fqdn) ∅ schedule).

(** [as_completed] yields every submitted future exactly once. *)
Definition valid_schedule (schedule : list nat) (fqdns : list string) : Prop :=
  schedule ≡ₚ seq 0 (length fqdns).

(** An element of [active_fqdns] / [all_fqdns]. *)
Record host_entry : Type := mk_host_entry {
  fqdn : string;
  ips : list string;
  resolved : bool
}.

Record infrastructure : Type := mk_infrastructure {
  operator : string;
  mnc_mcc_pairs : list (Z * Z);
  total_fqdns : Z;
  active_fqdns : list host_entry;
  resolution_time_ms : Z
}.

(** [int((time.time() - start_time) * 1000)] *)
Definition elapsed_ms (start_time end_time : Q) : Z :=
  int_of_float ((end_time - start_time) * 1000)%Q.

(** Lines 132-139: one iteration of the loop over [sorted(fqdns)]. *)
Definition append_if_active (resolution_results : gmap string (list string))
    (active_fqdns : list host_entry) (fqdn : string) : list host_entry :=
  let ips := default [] (resolution_results !! fqdn) in
  match ips with
  | [] => active_fqdns
  | _ :: _ => active_fqdns ++ [mk_host_entry fqdn ips true]
  end.

(** [get_operator_infrastructure(operator_name, fqdns, mnc_mcc_pairs,
    max_workers, timeout)]; [start_time] and [end_time] are the two
    readings of the clock. *)
Definition get_operator_infrastructure (net : nat -> dns_lookup) (schedule : list nat)
    (start_time end_time : Q)
    (operator_name : string) (fqdns : list string) (mnc_mcc_pairs : list (Z * Z))
    (max_workers timeout : Z) : result infrastructure :=
  resolution_results ← resolve_multiple_fqdns net schedule fqdns max_workers timeout;
  let active_fqdns :=
    foldl (append_if_active resolution_results) [] (sorted fqdns) in
  let resolution_time_ms := elapsed_ms start_time end_time in
  Returned (mk_infrastructure operator_name mnc_mcc_pairs
              (Z.of_nat (length fqdns)) active_fqdns resolution_time_ms).

Record infrastructure_all : Type := mk_infrastructure_all {
  all_operator : string;
  all_mnc_mcc_pairs : list (Z * Z);
  all_total_fqdns : Z;
  active_count : Z;
  inactive_count : Z;
  all_fqdns : list host_entry;
  all_resolution_time_ms : Z
}.

(** Lines 183-189: one iteration of the loop over [sorted(fqdns)]. *)
Definition append_entry (resolution_results : gmap string (list string))
    (all_fqdns : list host_entry) (fqdn : string) : list host_entry :=
  let ips := default [] (resolution_results !! fqdn) in
  all_fqdns ++ [mk_host_entry fqdn ips (0 <? Z.of_nat (length ips))].

(** [get_operator_infrastructure_with_all_fqdns(...)] *)
Definition get_operator_infrastructure_with_all_fqdns
    (net : nat -> dns_lookup) (schedule : list nat) (start_time end_time : Q)
    (operator_name : string) (fqdns : list string) (mnc_mcc_pairs : list (Z * Z))
    (max_workers timeout : Z) : result infrastructure_all :=
  resolution_results ← resolve_multiple_fqdns net schedule fqdns max_workers timeout;
  let all_fqdns := foldl (append_entry resolution_results) [] (sorted fqdns) in
  let resolution_time_ms := elapsed_ms start_time end_time in
  let active_count :=
    Z.of_nat (length (List.filter resolved all_fqdns)) in
  Returned (mk_infrastructure_all operator_name mnc_mcc_pairs
              (Z.of_nat (length fqdns)) active_count
              (Z.of_nat (length fqdns) - active_count)
              all_fqdns resolution_time_ms).

End IpResolver.

(** ** main.py: the rate-limit gate in front of a command *)

Module BotMain.
Import Py.

(** [allowed, message = <value>]: a tuple of two items unpacks; any other
    tuple is a [ValueError], anything else a [TypeError]. *)
Definition unpack_pair (v : value) : result (value * value) :=
  match v with
  | VTuple [a; b] => Returned (a, b)
  | VTuple _ => Raised ValueError
  | _ => Raised (OtherException "TypeError")
  end.

(** Truth value of an object, as [not allowed] tests it. *)
Definition truthy (v : value) : bool :=
  match v with
  | VBool b => b
  | VInt z => negb (z =? 0)
  | VStr s => negb (String.eqb s EmptyString)
  | VTuple items => match items with [] => false | _ :: _ => true end
  end.

(** [rate_limit_check(update, context)] with
    [user_id = update.effective_user.id].  The result is the bool that is
    returned and the texts passed to [update.message.reply_text]; the
    limiter is the module-level [rate_limiter].  The clock is read twice:
    by [check_rate_limit] and then by [record_query].  The log line has no
    effect on either, and sending the reply is taken to succeed. *)
Definition rate_limit_check (rate_limiter : RateLimiter.t) (user_id : Z)
    (check_time record_time : Q)
  : result (bool * list value) * RateLimiter.t :=
  let '(r, limiter) :=
    RateLimiter.check_rate_limit rate_limiter user_id check_time in
  match r ≫= unpack_pair with
  | Raised e => (Raised e, limiter)
  | Returned (allowed, message) =>
      if negb (truthy allowed) then (Returned (false, [message]), limiter)
      else (Returned (true, []),
            RateLimiter.record_query limiter user_id record_time)
  end.

(** A sequence of commands, each going through [rate_limit_check]:
    [(user_id, check_time, record_time)]. *)
Definition serve (rate_limiter : RateLimiter.t) (calls : list (Z * Q * Q))
  : RateLimiter.t :=
  foldl (fun limiter call =>
           snd (rate_limit_check limiter (fst (fst call)) (snd (fst call))
                                 (snd call)))
        rate_limiter calls.

End BotMain.

(** ** mcp-server/main.py: the resolver the bot's one was ported from *)

Module McpServer.
Import Py.

(** [resolve_fqdn(fqdn)]: no timeout is set, and one handler catches
    every [Exception]. *)
Definition resolve_fqdn (getaddrinfo : IpResolver.dns_lookup) (fqdn : string)
  : result (list string) :=
  try_except
    (addr_info ← getaddrinfo fqdn;
     let ips :=
       sorted (list_of_set (List.map IpResolver.info_address addr_info)) in
     Returned ips)
    (fun _ => Returned []).

End McpServer.

(** ** services/formatter.py: rendering a report *)

Module Formatter.
Import Py.

(** [s.replace(old, new)] for a one-character [old]. *)
Fixpoint replace_char (old : ascii) (new : string) (s : string) : string :=
  match s with
  | EmptyString => EmptyString
  | String c rest =>
      if Ascii.eqb c old then new +:+ replace_char old new rest
      else String c (replace_char old new rest)
  end.

Definition double_quote : ascii := ascii_of_nat 34.
Definition single_quote : ascii := ascii_of_nat 39.

(** [html.escape(s)] with its default [quote=True]: five replacements,
    the ampersand first. *)
Definition html_escape (s : string) : string :=
  let s := replace_char "&" "&amp;" s in
  let s := replace_char "<" "&lt;" s in
  let s := replace_char ">" "&gt;" s in
  let s := replace_char double_quote "&quot;" s in
  let s := replace_char single_quote "&#x27;" s in
  s.

(** [escape_markdown(text)] for a [str]. *)
Definition escape_markdown (text : string) : string := html_escape text.

(** [sep.join(items)] *)
Fixpoint str_join (sep : string) (items : list string) : string :=
  match items with
  | [] => EmptyString
  | [item] => item
  | item :: rest => item +:+ sep +:+ str_join sep rest
  end.

(** [for _, mcc in <ints>]: the target [_, mcc] unpacks each item, and an
    [int] cannot be unpacked.  The items are the MCCs of [mnc_mcc_pairs],
    which holds pairs of ints ([List[Tuple[int, int]]] in
    [get_operator_infrastructure], INTEGER columns in the store). *)
Definition unpack_int (item : Z) : result (Z * Z) :=
  Raised (OtherException "TypeError").

(** Lines 74-81: what one iteration of the loop over [active_fqdns]
    appends. *)
Definition fqdn_lines (show_ips : bool) (fqdn_data : IpResolver.host_entry)
  : list string :=
  let fqdn := escape_markdown (IpResolver.fqdn fqdn_data) in
  ("   📍 <code>" +:+ fqdn +:+ "</code>")
  :: match show_ips, IpResolver.ips fqdn_data with
     | true, _ :: _ =>
         ["      → "
          +:+ str_join ", " (List.map escape_markdown (IpResolver.ips fqdn_data))]
     | _, _ => []
     end.

(** Lines 67-81: the loop over [active_fqdns] with its [break];
    [total] is [len(active_fqdns)], [shown] the counter, [todo] what is
    left to iterate. *)
Fixpoint shown_lines (max_fqdns : Z) (show_ips : bool) (total : Z) (shown : Z)
    (todo : list IpResolver.host_entry) : list string :=
  match todo with
  | [] => []
  | fqdn_data :: rest =>
      if max_fqdns <=? shown
      then ["   ... and " +:+ str_of_int (total - shown) +:+ " more"]
      else fqdn_lines show_ips fqdn_data
           ++ shown_lines max_fqdns show_ips total (shown + 1) rest
  end.

(** The [lines] of [format_operator_result], before they are joined.
    [operator_data] is a dict built by [get_operator_infrastructure], so
    every key the function reads with [.get] is present. *)
Definition format_operator_result_lines
    (operator_data : IpResolver.infrastructure) (max_fqdns : Z)
    (show_ips : bool) : result (list string) :=
  let operator := escape_markdown (IpResolver.operator operator_data) in
  let lines := ["<b>" +:+ operator +:+ "</b>"] in
  let mnc_mcc_pairs := IpResolver.mnc_mcc_pairs operator_data in
  lines ←
    match mnc_mcc_pairs with
    | [] => Returned lines
    | _ :: _ =>
        let mnc_str :=
          str_join ", " (List.map (fun pair => str_of_int (fst pair)) mnc_mcc_pairs) in
        mcc_items ←
          mapM (fun item =>
                  pair ← unpack_int item; Returned (str_of_int (snd pair)))
               (elements (list_to_set (List.map snd mnc_mcc_pairs) : gset Z));
        let mcc_str := str_join ", " mcc_items in
        Returned (lines ++ ["   • MNC: " +:+ mnc_str +:+ " | MCC: " +:+ mcc_str])
    end;
  let active_fqdns := IpResolver.active_fqdns operator_data in
  let total_fqdns := IpResolver.total_fqdns operator_data in
  match active_fqdns with
  | [] => Returned (lines ++ ["   • No active FQDNs found"])
  | _ :: _ =>
      let count := Z.of_nat (length active_fqdns) in
      Returned
        (lines
         ++ ["   • Active FQDNs: " +:+ str_of_int count +:+ "/"
             +:+ str_of_int total_fqdns;
             EmptyString]
         ++ shown_lines max_fqdns show_ips count 0 active_fqdns)
  end.

(** [format_operator_result(operator_data, max_fqdns, show_ips)] *)
Definition format_operator_result (operator_data : IpResolver.infrastructure)
    (max_fqdns : Z) (show_ips : bool) : result string :=
  lines ← format_operator_result_lines operator_data max_fqdns show_ips;
  Returned (str_join newline lines).

(** [format_operator_response(operator_name, operator_data, max_fqdns)] *)
Definition format_operator_response (operator_name : string)
    (operator_data : IpResolver.infrastructure) (max_fqdns : Z)
  : result string :=
  let lines :=
    ["📱 <b>Operator:</b> " +:+ escape_markdown operator_name; EmptyString] in
  text ← format_operator_result operator_data max_fqdns true;
  Returned (str_join newline (lines ++ [text])).

End Formatter.

(** * Properties *)

(** ** Builtins *)

Module PyFacts.
Import Py.

Lemma ascii_compare_trans_lt a b c :
  Ascii.compare a b = Lt -> Ascii.compare b c = Lt -> Ascii.compare a c = Lt.
Proof.
  unfold Ascii.compare. rewrite !N.compare_lt_iff. apply N.lt_trans.
Qed.

Lemma str_compare_refl s : String.compare s s = Eq.
Proof.
  induction s as [|c s IH]; simpl; [reflexivity|].
  unfold Ascii.compare. now rewrite N.compare_refl.
Qed.

Lemma str_compare_trans_lt s1 : forall s2 s3,
  String.compare s1 s2 = Lt -> String.compare s2 s3 = Lt ->
  String.compare s1 s3 = Lt.
Proof.
  induction s1 as [|a s1 IH]; intros [|b s2] [|c s3]; simpl; try congruence.
  destruct (Ascii.compare a b) eqn:Hab; try discriminate;
    destruct (Ascii.compare b c) eqn:Hbc; try discriminate; intros H1 H2.
  - apply Ascii.compare_eq_iff in Hab as ->. rewrite Hbc. eauto.
  - apply Ascii.compare_eq_iff in Hab as ->. now rewrite Hbc.
  - apply Ascii.compare_eq_iff in Hbc as <-. now rewrite Hab.
  - now rewrite (ascii_compare_trans_lt _ _ _ Hab Hbc).
Qed.

Lemma str_le_cases a b : str_le a b <-> a = b \/ String.compare a b = Lt.
Proof.
  unfold str_le, String.leb. split.
  - destruct (String.compare a b) eqn:E; try discriminate; intros _.
    + left. now apply String.compare_eq_iff.
    + now right.
  - intros [-> | ->]; [now rewrite str_compare_refl | reflexivity].
Qed.

#[global] Instance str_le_refl : Reflexive str_le.
Proof. intros s. apply str_le_cases. now left. Qed.

#[global] Instance str_le_trans : Transitive str_le.
Proof.
  intros a b c Hab Hbc. apply str_le_cases in Hab, Hbc. apply str_le_cases.
  destruct Hab as [-> | Hab], Hbc as [<- | Hbc]; eauto using str_compare_trans_lt.
Qed.

#[global] Instance str_le_total : Total str_le.
Proof. intros a b. apply String.leb_total. Qed.

#[global] Instance str_le_antisym : AntiSymm (=) str_le.
Proof. intros a b. apply String.leb_antisym. Qed.

Lemma sorted_Sorted l : StronglySorted str_le (sorted l).
Proof. apply StronglySorted_merge_sort; apply _. Qed.

Lemma sorted_Permutation l : sorted l ≡ₚ l.
Proof. apply merge_sort_Permutation. Qed.

(** The result of [sorted] does not depend on the order of its input (nor
    on the sorting algorithm): it is the one ordered arrangement. *)
Lemma sorted_unique l l' :
  l' ≡ₚ l -> StronglySorted str_le l' -> l' = sorted l.
Proof.
  intros Hp Hs. apply (StronglySorted_unique str_le); auto using sorted_Sorted.
  now rewrite sorted_Permutation.
Qed.

Lemma sorted_length l : length (sorted l) = length l.
Proof. apply Permutation_length, sorted_Permutation. Qed.

Lemma list_of_set_NoDup l : NoDup (list_of_set l).
Proof. unfold list_of_set. apply NoDup_elements. Qed.

Lemma list_of_set_elem l a : a ∈ list_of_set l <-> a ∈ l.
Proof. unfold list_of_set. rewrite elem_of_elements. apply elem_of_list_to_set. Qed.

(** [int] on a non-negative float is the floor. *)
Lemma int_of_float_floor x : (0 <= x)%Q -> int_of_float x = Qfloor x.
Proof.
  destruct x as [n d]. unfold Qle, int_of_float, Qfloor. simpl. intros H.
  apply Z.quot_div_nonneg; lia.
Qed.

Lemma int_of_float_nonneg x : (0 <= x)%Q -> 0 <= int_of_float x.
Proof.
  intros H. rewrite int_of_float_floor by assumption.
  change 0 with (Qfloor 0). now apply Qfloor_resp_le.
Qed.

Lemma int_of_float_mono x y :
  (0 <= x)%Q -> (x <= y)%Q -> int_of_float x <= int_of_float y.
Proof.
  intros Hx Hxy. rewrite !int_of_float_floor; [|lra|lra].
  now apply Qfloor_resp_le.
Qed.

Lemma int_of_float_step x y :
  (0 <= x)%Q -> (x + 1 <= y)%Q -> int_of_float x < int_of_float y.
Proof.
  intros Hx Hxy. rewrite !int_of_float_floor; [|lra|lra].
  assert (H : (inject_Z (Qfloor x + 1) <= y)%Q).
  { rewrite inject_Z_plus. pose proof (Qfloor_le x) as Hf.
    change (inject_Z 1) with 1%Q. lra. }
  apply Qfloor_resp_le in H. rewrite Qfloor_Z in H. lia.
Qed.

Lemma Qgtb_true a b : Qgtb a b = true <-> (b < a)%Q.
Proof.
  unfold Qgtb. rewrite negb_true_iff, <- not_true_iff_false, Qle_bool_iff.
  split; [apply Qnot_le_lt | apply Qlt_not_le].
Qed.

Lemma Qgtb_false a b : Qgtb a b = false <-> (a <= b)%Q.
Proof. unfold Qgtb. rewrite negb_false_iff. apply Qle_bool_iff. Qed.

Lemma Qgeb_true a b : Qgeb a b = true <-> (b <= a)%Q.
Proof. apply Qle_bool_iff. Qed.

End PyFacts.
Import PyFacts.

(** ** Rate limiter: the purge and the frame of [check_rate_limit] *)

Module RateLimiterFacts.
Import Py RateLimiter.

Lemma purge_split now l :
  exists removed,
    l = removed ++ purge now l /\ Forall (fun ts => (3600 < now - ts)%Q) removed.
Proof.
  induction l as [|ts0 rest IH]; simpl.
  - exists []. split; [reflexivity | constructor].
  - destruct (Qgtb (now - ts0) 3600) eqn:E.
    + destruct IH as (removed & Heq & Hall). exists (ts0 :: removed). split.
      * simpl. now f_equal.
      * constructor; [now apply Qgtb_true | assumption].
    + exists []. split; [reflexivity | constructor].
Qed.

Lemma purge_head now l ts0 rest :
  purge now l = ts0 :: rest -> (now - ts0 <= 3600)%Q.
Proof.
  induction l as [|a l IH]; simpl; [discriminate|].
  destruct (Qgtb (now - a) 3600) eqn:E; [assumption|].
  intros [= <- _]. now apply Qgtb_false.
Qed.

Lemma purge_fixed now l :
  match l with [] => True | ts0 :: _ => (now - ts0 <= 3600)%Q end ->
  purge now l = l.
Proof.
  destruct l as [|a l]; simpl; [reflexivity|].
  intros H. apply Qgtb_false in H. now rewrite H.
Qed.

Lemma purge_idem now l : purge now (purge now l) = purge now l.
Proof.
  apply purge_fixed. destruct (purge now l) eqn:E; [exact I|].
  eapply purge_head, E.
Qed.

Lemma timestamps_insert self uq uid d other :
  timestamps (with_user_queries self (<[uid := d]> uq)) other
  = if decide (uid = other) then d else default [] (uq !! other).
Proof.
  unfold timestamps. simpl. rewrite lookup_insert.
  now destruct (decide (uid = other)).
Qed.

(** The state a check leaves: untouched for an admin, else the caller's
    deque purged (and stored, if the key was absent). *)
Lemma check_verdict_state self uid now :
  snd (check_verdict self uid now)
  = if is_admin self uid then self
    else with_user_queries self
           (<[uid := purge now (timestamps self uid)]> (user_queries self)).
Proof.
  unfold check_verdict. destruct (is_admin self uid); [reflexivity|].
  simpl.
  destruct (_ <=? count_since _ _).
  { destruct (next_reversed_since _ _); reflexivity. }
  destruct (_ <=? Z.of_nat _); [|reflexivity].
  destruct (purge now (timestamps self uid)); reflexivity.
Qed.

Lemma check_rate_limit_fst self uid now :
  fst (check_rate_limit self uid now)
  = (v ← fst (check_verdict self uid now); Returned (returned_tuple self v)).
Proof. unfold check_rate_limit. now destruct (check_verdict self uid now). Qed.

Lemma check_rate_limit_snd self uid now :
  snd (check_rate_limit self uid now) = snd (check_verdict self uid now).
Proof. unfold check_rate_limit. now destruct (check_verdict self uid now). Qed.

(** The verdict only reads the limits, the admin set and the caller's
    own deque. *)
Lemma check_verdict_fst_ext self1 self2 uid now :
  max_per_minute self1 = max_per_minute self2 ->
  max_per_hour self1 = max_per_hour self2 ->
  admin_user_ids self1 = admin_user_ids self2 ->
  purge now (timestamps self1 uid) = purge now (timestamps self2 uid) ->
  fst (check_verdict self1 uid now) = fst (check_verdict self2 uid now).
Proof.
  intros Hm Hh Ha Hp. unfold check_verdict, is_admin. rewrite Hm, Hh, Ha, Hp.
  destruct (bool_decide _); [reflexivity|]. simpl.
  destruct (_ <=? count_since _ _).
  { destruct (next_reversed_since _ _); reflexivity. }
  destruct (_ <=? Z.of_nat _); [|reflexivity].
  destruct (purge now (timestamps self2 uid)); reflexivity.
Qed.

Lemma returned_tuple_ext self1 self2 v :
  max_per_minute self1 = max_per_minute self2 ->
  max_per_hour self1 = max_per_hour self2 ->
  returned_tuple self1 v = returned_tuple self2 v.
Proof.
  intros Hm Hh. destruct v; simpl; unfold minute_message, hour_message;
    now rewrite ?Hm, ?Hh.
Qed.

(** No method changes the limits or the admin set. *)
Lemma run_config self o now :
  max_per_minute (run self o now) = max_per_minute self
  /\ max_per_hour (run self o now) = max_per_hour self
  /\ admin_user_ids (run self o now) = admin_user_ids self.
Proof.
  destruct o; simpl; auto.
  rewrite check_rate_limit_snd, check_verdict_state.
  destruct (is_admin self user_id); auto.
Qed.

Lemma run_all_admins self history :
  admin_user_ids (run_all self history) = admin_user_ids self.
Proof.
  revert self. induction history as [|[o now] history IH]; intros self;
    [reflexivity|].
  unfold run_all in *. simpl. rewrite IH. apply run_config.
Qed.

(** The generator of line 77 scans from the right end of the deque: on a
    deque in chronological order it yields the newest timestamp. *)
Lemma next_reversed_since_newest minute_ago l c :
  StronglySorted Qle l ->
  next_reversed_since minute_ago l = Some c -> last l = Some c.
Proof.
  intros Hs. unfold next_reversed_since.
  induction l as [|x l0 _] using rev_ind; [discriminate|].
  rewrite rev_unit. simpl. rewrite last_snoc.
  destruct (Qgeb x minute_ago) eqn:E; [congruence|].
  intros Hf. apply find_some in Hf as [Hin Hge]. exfalso.
  apply in_rev, list_elem_of_In in Hin.
  assert (Hcx : (c <= x)%Q).
  { eapply (StronglySorted_app_1_elem_of Qle); [exact Hs|exact Hin|].
    apply list_elem_of_singleton. reflexivity. }
  apply Qgeb_true in Hge. apply not_true_iff_false in E. apply E.
  apply Qgeb_true. lra.
Qed.

Lemma next_reversed_since_ge minute_ago l c :
  next_reversed_since minute_ago l = Some c -> (minute_ago <= c)%Q.
Proof.
  unfold next_reversed_since. intros Hf.
  apply find_some in Hf as [_ Hge]. now apply Qgeb_true.
Qed.

Lemma purge_sorted now l :
  StronglySorted Qle l -> StronglySorted Qle (purge now l).
Proof.
  intros Hs. destruct (purge_split now l) as (removed & Heq & _).
  rewrite Heq in Hs. eapply StronglySorted_app_1_r, Hs.
Qed.

Lemma purge_last now l c :
  last (purge now l) = Some c -> last l = Some c.
Proof.
  intros Hl. destruct (purge_split now l) as (removed & Heq & _).
  rewrite Heq. apply last_app_Some. now left.
Qed.

(** What a verdict on the minute limit was computed from. *)
Lemma check_verdict_minute_inv self uid now w qlm qlh :
  fst (check_verdict self uid now) = Returned (MinuteLimit w qlm qlh) ->
  is_admin self uid = false
  /\ max_per_minute self <= qlm
  /\ qlm = count_since (now - 60)%Q (purge now (timestamps self uid))
  /\ qlh = Z.of_nat (length (purge now (timestamps self uid)))
  /\ exists picked,
       next_reversed_since (now - 60)%Q (purge now (timestamps self uid))
       = Some picked
       /\ w = int_of_float (60 - (now - picked))%Q.
Proof.
  unfold check_verdict. destruct (is_admin self uid); [discriminate|].
  simpl. destruct (_ <=? count_since _ _) eqn:Hm.
  - destruct (next_reversed_since _ _) as [picked|]; [|discriminate].
    simpl. intros [= <- <- <-]. apply Z.leb_le in Hm. eauto 10.
  - destruct (_ <=? Z.of_nat _); [|discriminate].
    destruct (purge now (timestamps self uid)); discriminate.
Qed.

(** What a verdict on the hour limit was computed from. *)
Lemma check_verdict_hour_inv self uid now w m qlh :
  fst (check_verdict self uid now) = Returned (HourLimit w m qlh) ->
  is_admin self uid = false
  /\ count_since (now - 60)%Q (purge now (timestamps self uid)) < max_per_minute self
  /\ max_per_hour self <= qlh
  /\ qlh = Z.of_nat (length (purge now (timestamps self uid)))
  /\ m = w / 60
  /\ exists oldest rest,
       purge now (timestamps self uid) = oldest :: rest
       /\ w = int_of_float (3600 - (now - oldest))%Q.
Proof.
  unfold check_verdict. destruct (is_admin self uid); [discriminate|].
  simpl. destruct (_ <=? count_since _ _) eqn:Hm.
  - destruct (next_reversed_since _ _); discriminate.
  - destruct (_ <=? Z.of_nat _) eqn:Hh; [|discriminate].
    destruct (purge now (timestamps self uid)) as [|oldest rest] eqn:Hp;
      [discriminate|].
    simpl. intros [= <- <- <-]. apply Z.leb_le in Hh. apply Z.leb_gt in Hm.
    eauto 10.
Qed.

(** The deque of a caller who is not an admin, after a check. *)
Lemma timestamps_after_check self uid now :
  is_admin self uid = false ->
  timestamps (snd (check_verdict self uid now)) uid
  = purge now (timestamps self uid).
Proof.
  intros Hadm. rewrite check_verdict_state, Hadm, timestamps_insert.
  now rewrite decide_True.
Qed.

(** A positive count of entries since [minute_ago] means the generator of
    line 77 finds one. *)
Lemma next_reversed_since_found minute_ago l :
  1 <= count_since minute_ago l ->
  exists picked, next_reversed_since minute_ago l = Some picked.
Proof.
  unfold count_since, next_reversed_since. intros Hc.
  destruct (find _ (rev l)) as [picked|] eqn:Hf; [now exists picked|].
  exfalso.
  assert (Hnone : forall x, In x l -> Qgeb x minute_ago = false).
  { intros x Hin.
    apply (find_none (fun ts => Qgeb ts minute_ago) (rev l) Hf x).
    now apply in_rev in Hin. }
  assert (Hnil : List.filter (fun ts => Qgeb ts minute_ago) l = []).
  { clear Hc Hf. induction l as [|a l IH]; [reflexivity|]. simpl.
    rewrite (Hnone a) by now left. apply IH. intros x Hin. apply Hnone. now right. }
  rewrite Hnil in Hc. simpl in Hc. lia.
Qed.

(** With positive limits, [check_rate_limit] raises nothing. *)
Lemma check_verdict_returns self uid now :
  1 <= max_per_minute self -> 1 <= max_per_hour self ->
  exists v, fst (check_verdict self uid now) = Returned v.
Proof.
  intros Hm Hh. unfold check_verdict.
  destruct (is_admin self uid); [now exists Allowed|]. simpl.
  destruct (_ <=? count_since _ _) eqn:Em.
  - apply Z.leb_le in Em.
    destruct (next_reversed_since_found (now - 60)%Q
                (purge now (timestamps self uid))) as [picked ->]; [lia|].
    simpl. eauto.
  - destruct (_ <=? Z.of_nat _) eqn:Eh; [|now exists Allowed].
    apply Z.leb_le in Eh.
    destruct (purge now (timestamps self uid)); simpl in *; [lia|eauto].
Qed.

(** Chronological order is what a clock that never runs backwards
    produces: from deques in order whose entries are not later than
    [now0], any history of calls at clock readings [now0 <= t1 <= t2 ...]
    leaves every deque in order. *)
Lemma run_all_chronological history :
  forall (self : t) (now0 : Q),
    (forall uid, StronglySorted Qle (timestamps self uid)
                 /\ Forall (fun ts => (ts <= now0)%Q) (timestamps self uid)) ->
    StronglySorted Qle (now0 :: (snd <$> history)) ->
    forall uid, StronglySorted Qle (timestamps (run_all self history) uid).
Proof.
  induction history as [|[o now] history IH]; intros self now0 Hinv Hclock uid.
  { apply Hinv. }
  unfold run_all. simpl. apply (IH _ now).
  - clear uid. intros uid. simpl.
    apply StronglySorted_cons in Hclock as [Hall _].
    apply Forall_cons in Hall as [Hle _]. simpl in Hle.
    destruct (Hinv uid) as [Hs Hb].
    assert (Hb' : Forall (fun ts => (ts <= now)%Q) (timestamps self uid)).
    { eapply Forall_impl; [exact Hb|]. simpl. intros ts Hts. lra. }
    destruct o as [u|u|u|u|]; simpl; auto.
    + rewrite check_rate_limit_snd, check_verdict_state.
      destruct (is_admin self u); [auto|].
      rewrite timestamps_insert. destruct (decide (u = uid)) as [->|]; [|auto].
      destruct (purge_split now (timestamps self uid)) as (removed & Heq & _).
      rewrite Heq in Hs, Hb'. split.
      * eapply StronglySorted_app_1_r, Hs.
      * now apply Forall_app in Hb' as [_ Hb'].
    + unfold record_query. rewrite timestamps_insert.
      destruct (decide (u = uid)) as [->|]; [|auto]. split.
      * apply StronglySorted_app_2; [|exact Hs|repeat constructor].
        intros x1 x2 H1 H2. apply list_elem_of_singleton in H2 as ->.
        rewrite Forall_forall in Hb'. auto.
      * apply Forall_app. split; [exact Hb'|].
        constructor; [lra | constructor].
    + unfold reset_user, timestamps in *. simpl.
      destruct (decide (u = uid)) as [->|Hne].
      * rewrite lookup_delete_eq. simpl. split; constructor.
      * rewrite lookup_delete_ne by assumption. auto.
  - simpl in Hclock. now apply StronglySorted_cons in Hclock as [_ Hclock].
Qed.

Lemma int_of_float_shift x y k :
  (0 <= x)%Q -> 0 <= k -> (x + inject_Z k <= y)%Q ->
  int_of_float x + k <= int_of_float y.
Proof.
  intros Hx Hk Hxy.
  assert (Hk' : (0 <= inject_Z k)%Q) by (now rewrite (Zle_Qle 0 k) in Hk).
  rewrite !int_of_float_floor; [|lra|lra].
  assert (H : (inject_Z (Qfloor x + k) <= y)%Q).
  { rewrite inject_Z_plus. pose proof (Qfloor_le x) as Hf. lra. }
  apply Qfloor_resp_le in H. now rewrite Qfloor_Z in H.
Qed.

(** The timestamp the generator of line 77 yields stays the same from one
    check to a later one when the entries dropped in between lie before the
    later bound and no entry counted at the first bound falls before the
    later one. *)
Lemma next_reversed_since_stable bound1 bound2 removed kept picked :
  (bound1 <= bound2)%Q ->
  Forall (fun ts => (ts < bound2)%Q) removed ->
  Forall (fun ts => (bound1 <= ts -> bound2 <= ts)%Q) (removed ++ kept) ->
  next_reversed_since bound1 (removed ++ kept) = Some picked ->
  next_reversed_since bound2 kept = Some picked.
Proof.
  intros Hle Hrem. unfold next_reversed_since.
  induction kept as [|x kept IH] using rev_ind; intros Hstay Hpick.
  - rewrite app_nil_r in *. apply find_some in Hpick as [Hin Hge]. exfalso.
    apply in_rev in Hin. rewrite Forall_forall in Hrem, Hstay.
    apply list_elem_of_In in Hin. apply Qgeb_true in Hge.
    pose proof (Hrem _ Hin). pose proof (Hstay _ Hin Hge). lra.
  - rewrite app_assoc in Hstay, Hpick. rewrite rev_unit in *. simpl in *.
    apply Forall_app in Hstay as [Hstay Hx].
    apply Forall_cons in Hx as [Hx _].
    destruct (Qgeb x bound1) eqn:E1.
    + injection Hpick as <-. apply Qgeb_true in E1.
      assert (E2 : Qgeb x bound2 = true) by (apply Qgeb_true; auto).
      now rewrite E2.
    + destruct (Qgeb x bound2) eqn:E2; [|now apply IH]. exfalso.
      apply Qgeb_true in E2. apply not_true_iff_false in E1.
      apply E1. apply Qgeb_true. lra.
Qed.

End RateLimiterFacts.
Import RateLimiterFacts.

(** ** Rate limiter: admission and frame properties *)

Module RateLimiterSpec.
Import Py RateLimiter.

(** C9 (admin bypass).  A caller in [admin_user_ids] is admitted by
    [check_rate_limit] whatever calls were made before (any history of
    checks, records and resets, at any clock readings, hence at any request
    rate): the check returns [True] with an empty message and leaves the state as it is. *)
Theorem admin_always_admitted (self : t) (user_id : Z)
    (history : list (op * Q)) (now : Q) :
  user_id ∈ admin_user_ids self ->
  check_rate_limit (run_all self history) user_id now
  = (Returned (VTuple [VBool true; VStr EmptyString]), run_all self history).
Proof.
  intros Hadmin. unfold check_rate_limit, check_verdict, is_admin.
  rewrite run_all_admins, bool_decide_eq_true_2 by assumption. reflexivity.
Qed.

Lemma admin_always_admitted_witness :
  let self := init 1 1 [42] in
  let history := [(RecordQuery 42, 0%Q); (RecordQuery 42, 1%Q);
                  (CheckRateLimit 42, 2%Q); (RecordQuery 42, 2%Q)] in
  42 ∈ admin_user_ids self
  /\ check_rate_limit (run_all self history) 42 3
     = (Returned (VTuple [VBool true; VStr EmptyString]), run_all self history).
Proof.
  intros self history.
  assert (H : 42 ∈ admin_user_ids self) by (apply (bool_decide_unpack _); vm_compute; exact I).
  split; [exact H | exact (admin_always_admitted self 42 history 3 H)].
Defined.

(** C10 (a check appends nothing).  [check_rate_limit] leaves the limits
    and the admin set alone, leaves every other caller's entry alone, and
    replaces the checked caller's deque by what the purge keeps: the old
    deque minus a prefix of entries older than 3600 seconds.  Hence a check
    repeated at the same instant gives the same answer and the same state
    (a denial consumes no quota).  [record_query] appends exactly the
    current timestamp to the caller's deque and touches no other entry, and
    every method other than [record_query] leaves each deque a suffix of
    what it was. *)
Theorem check_appends_nothing (self : t) (user_id : Z) (now : Q) :
  let self' := snd (check_rate_limit self user_id now) in
  (max_per_minute self' = max_per_minute self
   /\ max_per_hour self' = max_per_hour self
   /\ admin_user_ids self' = admin_user_ids self)
  /\ (forall other, other <> user_id ->
        user_queries self' !! other = user_queries self !! other)
  /\ (exists removed,
        timestamps self user_id = removed ++ timestamps self' user_id
        /\ Forall (fun ts => (3600 < now - ts)%Q) removed)
  /\ check_rate_limit self' user_id now
     = (fst (check_rate_limit self user_id now), self')
  /\ (forall t,
        timestamps (record_query self user_id t) user_id
        = timestamps self user_id ++ [t]
        /\ forall other, other <> user_id ->
             user_queries (record_query self user_id t) !! other
             = user_queries self !! other)
  /\ (forall o t other,
        (forall u, o <> RecordQuery u) ->
        exists removed,
          timestamps self other = removed ++ timestamps (run self o t) other).
Proof.
  intros self'. subst self'.
  split; [|split; [|split; [|split; [|split]]]].
  - apply (run_config self (CheckRateLimit user_id) now).
  - intros other Hne. rewrite check_rate_limit_snd, check_verdict_state.
    destruct (is_admin self user_id); [reflexivity|].
    simpl. now rewrite lookup_insert_ne.
  - rewrite check_rate_limit_snd, check_verdict_state.
    destruct (is_admin self user_id).
    + exists []. split; [reflexivity | constructor].
    + rewrite timestamps_insert, decide_True by reflexivity. apply purge_split.
  - rewrite (surjective_pairing (check_rate_limit _ _ now)). f_equal.
    + rewrite !check_rate_limit_fst, check_rate_limit_snd, check_verdict_state.
      destruct (is_admin self user_id) eqn:Hadm; [reflexivity|].
      rewrite (check_verdict_fst_ext (with_user_queries self _) self user_id now);
        [|reflexivity..|].
      * destruct (fst (check_verdict self user_id now)) as [[]|]; reflexivity.
      * rewrite timestamps_insert, decide_True by reflexivity. apply purge_idem.
    + rewrite !check_rate_limit_snd, !check_verdict_state.
      destruct (is_admin self user_id) eqn:Hadm; [now rewrite Hadm|].
      unfold is_admin in *. simpl. rewrite Hadm.
      rewrite timestamps_insert, decide_True by reflexivity.
      unfold with_user_queries. simpl. now rewrite purge_idem, insert_insert_eq.
  - intros t. split.
    + unfold record_query. now rewrite timestamps_insert, decide_True.
    + intros other Hne. unfold record_query. simpl. now rewrite lookup_insert_ne.
  - intros o t other Hnot. destruct o as [u|u|u|u|]; simpl.
    + rewrite check_rate_limit_snd, check_verdict_state.
      destruct (is_admin self u); [now exists []|].
      rewrite timestamps_insert. destruct (decide (u = other)) as [->|Hne].
      * destruct (purge_split t (timestamps self other)) as (removed & Heq & _).
        now exists removed.
      * now exists [].
    + now destruct (Hnot u).
    + now exists [].
    + unfold reset_user, timestamps at 2. simpl.
      destruct (decide (u = other)) as [->|Hne].
      * rewrite lookup_delete_eq. simpl. exists (timestamps self other).
        now rewrite app_nil_r.
      * rewrite lookup_delete_ne by assumption. now exists [].
    + now exists [].
Qed.
Lemma check_appends_nothing_witness :
  let self := record_query (record_query (init 2 50 []) 7 0) 8 5 in
  user_queries (snd (check_rate_limit self 7 4000)) !! 8
  = user_queries self !! 8
  /\ exists removed,
       timestamps self 8
       = removed ++ timestamps (run self (ResetUser 8) 4000) 8.
Proof.
  intros self.
  destruct (check_appends_nothing self 7 4000) as (_ & Hother & _ & _ & _ & Hrun).
  split.
  - apply Hother. lia.
  - apply (Hrun (ResetUser 8) 4000%Q 8). intros u. discriminate.
Defined.

(** On a deque in chronological order, the wait of a denial on the minute
    limit is counted from the newest timestamp of the caller. *)
Lemma minute_wait_uses_newest self uid now w qlm qlh :
  StronglySorted Qle (timestamps self uid) ->
  fst (check_verdict self uid now) = Returned (MinuteLimit w qlm qlh) ->
  exists newest,
    last (timestamps self uid) = Some newest
    /\ (now - 60 <= newest)%Q
    /\ w = int_of_float (60 - (now - newest))%Q.
Proof.
  intros Hs Hv.
  apply check_verdict_minute_inv in Hv as (_ & _ & _ & _ & picked & Hpick & ->).
  exists picked. split; [|split; [|reflexivity]].
  - eapply purge_last, next_reversed_since_newest; [|exact Hpick].
    now apply purge_sorted.
  - eapply next_reversed_since_ge, Hpick.
Qed.

(** C1 (minute boundary), the code at the input of the claim.  With
    [max_per_minute = 2] and requests recorded at t=0 and t=10, the check
    at t=20 is denied, but the wait it reports is 50 seconds: the scan of
    line 77 runs over [reversed(user_timestamps)] and picks t=10, the
    newest entry of the last minute, where the variable it is bound to is
    named [oldest_in_minute].  From the oldest entry, t=0, the wait would
    be [60 - (20 - 0) = 40]. *)
Theorem minute_boundary_reports_50 :
  let self := record_query (record_query (init 2 50 []) 7 0) 7 10 in
  timestamps self 7 = [0%Q; 10%Q]
  /\ next_reversed_since (20 - 60)%Q (timestamps self 7) = Some 10%Q
  /\ fst (check_verdict self 7 20) = Returned (MinuteLimit 50 2 2)
  /\ fst (check_rate_limit self 7 20)
     = Returned (VTuple [VBool false; VStr (minute_message self 50 2 2)])
  /\ int_of_float (60 - (20 - 0))%Q = 40.
Proof. vm_compute. repeat split; reflexivity. Qed.

(** C2 (hour boundary), as the code has it.  For a caller who is not an
    admin and not over the minute limit, whose purged deque
    [oldest :: rest] holds at least [max_per_hour] entries, the check is
    denied; [wait_seconds] is [3600 - (now - oldest)] rounded down to whole
    seconds, and the message reports it in whole minutes.  With
    [max_per_hour = 2], [max_per_minute = 1000] and requests recorded at
    t=0 and t=100, the check at t=200 is denied with
    [wait_seconds = 3400]. *)
Theorem hour_limit_wait :
  (forall (self : t) (user_id : Z) (now oldest : Q) (rest : list Q),
     user_id ∉ admin_user_ids self ->
     purge now (timestamps self user_id) = oldest :: rest ->
     count_since (now - 60)%Q (oldest :: rest) < max_per_minute self ->
     max_per_hour self <= Z.of_nat (length (oldest :: rest)) ->
     let wait_seconds := int_of_float (3600 - (now - oldest))%Q in
     let queries_last_hour := Z.of_nat (length (oldest :: rest)) in
     fst (check_verdict self user_id now)
     = Returned (HourLimit wait_seconds (wait_seconds / 60) queries_last_hour)
     /\ fst (check_rate_limit self user_id now)
        = Returned (VTuple [VBool false;
                            VStr (hour_message self (wait_seconds / 60)
                                               queries_last_hour)])
     /\ (inject_Z wait_seconds <= 3600 - (now - oldest)
         < inject_Z (wait_seconds + 1))%Q)
  /\ (let self := record_query (record_query (init 1000 2 []) 7 0) 7 100 in
      fst (check_verdict self 7 200) = Returned (HourLimit 3400 56 2)).
Proof.
  split; [|vm_compute; reflexivity].
  intros self user_id now oldest rest Hadm Hp Hmin Hhour wait_seconds qlh.
  assert (Hv : fst (check_verdict self user_id now)
               = Returned (HourLimit wait_seconds (wait_seconds / 60) qlh)).
  { unfold check_verdict, is_admin.
    rewrite bool_decide_eq_false_2 by assumption. rewrite Hp.
    apply Z.leb_gt in Hmin. apply Z.leb_le in Hhour.
    cbv zeta. rewrite Hmin, Hhour. reflexivity. }
  split; [exact Hv|]. split.
  - rewrite check_rate_limit_fst, Hv. reflexivity.
  - assert (H0 : (0 <= 3600 - (now - oldest))%Q).
    { apply purge_head in Hp. lra. }
    subst wait_seconds. rewrite (int_of_float_floor _ H0).
    split; [apply Qfloor_le | apply Qlt_floor].
Qed.

Lemma hour_limit_wait_witness :
  let self := record_query (record_query (init 1000 2 []) 7 0) 7 100 in
  fst (check_verdict self 7 (401 # 2))
  = Returned (HourLimit 3399 (3399 / 60) 2).
Proof.
  intros self.
  refine (proj1 (proj1 hour_limit_wait self 7 (401 # 2) 0%Q [100%Q] _ _ _ _)).
  - apply (bool_decide_unpack _). vm_compute. exact I.
  - vm_compute. reflexivity.
  - vm_compute. reflexivity.
  - vm_compute. discriminate.
Defined.

(** C2, the claim as worded, at t=200.5: the wait that is computed is 3399
    whole seconds, not [3600 - (200.5 - 0) = 3399.5]. *)
Lemma hour_limit_wait_not_exact :
  let self := record_query (record_query (init 1000 2 []) 7 0) 7 100 in
  let now := (401 # 2)%Q in
  purge now (timestamps self 7) = [0%Q; 100%Q]
  /\ fst (check_verdict self 7 now) = Returned (HourLimit 3399 56 2)
  /\ ~ (inject_Z 3399 == 3600 - (now - 0))%Q.
Proof.
  vm_compute. split; [reflexivity|]. split; [reflexivity|]. discriminate.
Qed.

(** C3 (wait times), as the code has them.  The wait a denial returns is
    the number in its message: [wait_seconds] on the minute limit,
    [wait_minutes] on the hour limit.
    (a) Every such wait is non-negative.
    (b) For a caller who records nothing in between, when two successive
        checks at [now1 <= now2] are both denied on the minute limit and no
        retained timestamp has left the last minute in between, the second
        wait is not larger than the first, and is smaller once a whole
        second has passed.
    (c) When both are denied on the hour limit and no retained timestamp
        has left the hour in between (the second check purges nothing), the
        second wait, in minutes, is not larger than the first, and is
        smaller once a whole minute has passed. *)
Theorem wait_nonneg_and_nonincreasing :
  (forall (self : t) (user_id : Z) (now : Q) (v : verdict),
     fst (check_verdict self user_id now) = Returned v ->
     fst (check_rate_limit self user_id now) = Returned (returned_tuple self v)
     /\ match v with
        | Allowed => True
        | MinuteLimit wait_seconds _ _ => 0 <= wait_seconds
        | HourLimit wait_seconds wait_minutes _ =>
            0 <= wait_seconds /\ 0 <= wait_minutes
        end)
  /\ (forall (self : t) (user_id : Z) (now1 now2 : Q) (w1 w2 a1 b1 a2 b2 : Z),
        let self1 := snd (check_rate_limit self user_id now1) in
        (now1 <= now2)%Q ->
        fst (check_verdict self user_id now1) = Returned (MinuteLimit w1 a1 b1) ->
        fst (check_verdict self1 user_id now2) = Returned (MinuteLimit w2 a2 b2) ->
        Forall (fun ts => (now1 - 60 <= ts -> now2 - 60 <= ts)%Q)
               (timestamps self1 user_id) ->
        fst (check_rate_limit self user_id now1)
        = Returned (VTuple [VBool false; VStr (minute_message self w1 a1 b1)])
        /\ fst (check_rate_limit self1 user_id now2)
           = Returned (VTuple [VBool false; VStr (minute_message self w2 a2 b2)])
        /\ w2 <= w1
        /\ ((now1 + 1 <= now2)%Q -> w2 < w1))
  /\ (forall (self : t) (user_id : Z) (now1 now2 : Q) (w1 w2 m1 m2 b1 b2 : Z),
        let self1 := snd (check_rate_limit self user_id now1) in
        (now1 <= now2)%Q ->
        fst (check_verdict self user_id now1) = Returned (HourLimit w1 m1 b1) ->
        fst (check_verdict self1 user_id now2) = Returned (HourLimit w2 m2 b2) ->
        purge now2 (timestamps self1 user_id) = timestamps self1 user_id ->
        fst (check_rate_limit self user_id now1)
        = Returned (VTuple [VBool false; VStr (hour_message self m1 b1)])
        /\ fst (check_rate_limit self1 user_id now2)
           = Returned (VTuple [VBool false; VStr (hour_message self m2 b2)])
        /\ m2 <= m1
        /\ ((now1 + 60 <= now2)%Q -> m2 < m1)).
Proof.
  split; [|split].
  - intros self user_id now v Hv. split.
    { rewrite check_rate_limit_fst, Hv. reflexivity. }
    destruct v as [|w a b|w m b]; [exact I| |].
    + apply check_verdict_minute_inv in Hv as (_ & _ & _ & _ & picked & Hp & ->).
      apply next_reversed_since_ge in Hp. apply int_of_float_nonneg. lra.
    + apply check_verdict_hour_inv in Hv
        as (_ & _ & _ & _ & -> & oldest & rest & Hp & ->).
      apply purge_head in Hp.
      assert (H : 0 <= int_of_float (3600 - (now - oldest))%Q)
        by (apply int_of_float_nonneg; lra).
      split; [exact H | now apply Z.div_pos].
  - intros self user_id now1 now2 w1 w2 a1 b1 a2 b2 self1 Hle H1 H2 Hstay.
    subst self1.
    pose proof (run_config self (CheckRateLimit user_id) now1) as (Hcm & Hch & _).
    simpl in Hcm, Hch. rewrite check_rate_limit_snd in *.
    split; [rewrite check_rate_limit_fst, H1; reflexivity|].
    split.
    { rewrite check_rate_limit_fst, H2. simpl.
      unfold minute_message. now rewrite Hcm. }
    apply check_verdict_minute_inv in H1
      as (Hadm & _ & _ & _ & p1 & Hp1 & ->).
    apply check_verdict_minute_inv in H2 as (_ & _ & _ & _ & p2 & Hp2 & ->).
    rewrite timestamps_after_check in Hp2, Hstay by assumption.
    destruct (purge_split now2 (purge now1 (timestamps self user_id)))
      as (removed & Heq & Hold).
    rewrite Heq in Hp1, Hstay.
    assert (Hp2' : next_reversed_since (now2 - 60)%Q
                     (purge now2 (purge now1 (timestamps self user_id)))
                   = Some p1).
    { eapply next_reversed_since_stable; [| |exact Hstay|exact Hp1]; [lra|].
      eapply Forall_impl; [exact Hold|]. simpl. intros ts Hts. lra. }
    rewrite Hp2' in Hp2. injection Hp2 as <-.
    apply next_reversed_since_ge in Hp2'.
    split; [apply int_of_float_mono; lra|].
    intros Hstep. apply int_of_float_step; lra.
  - intros self user_id now1 now2 w1 w2 m1 m2 b1 b2 self1 Hle H1 H2 Hkeep.
    subst self1.
    pose proof (run_config self (CheckRateLimit user_id) now1) as (_ & Hch & _).
    simpl in Hch. rewrite check_rate_limit_snd in *.
    split; [rewrite check_rate_limit_fst, H1; reflexivity|].
    split.
    { rewrite check_rate_limit_fst, H2. simpl.
      unfold hour_message. now rewrite Hch. }
    apply check_verdict_hour_inv in H1
      as (Hadm & _ & _ & _ & -> & o1 & r1 & Hp1 & ->).
    apply check_verdict_hour_inv in H2
      as (_ & _ & _ & _ & -> & o2 & r2 & Hp2 & ->).
    rewrite Hkeep, timestamps_after_check, Hp1 in Hp2 by assumption.
    injection Hp2 as <- <-.
    rewrite timestamps_after_check, Hp1 in Hkeep by assumption.
    apply purge_head in Hkeep.
    split.
    + apply Z.div_le_mono; [lia|]. apply int_of_float_mono; lra.
    + intros Hstep.
      assert (Hs : int_of_float (3600 - (now2 - o1))%Q + 60
                   <= int_of_float (3600 - (now1 - o1))%Q).
      { apply int_of_float_shift; [lra | lia |].
        change (inject_Z 60) with 60%Q. lra. }
      pose proof (Z.div_le_mono _ _ 60 ltac:(lia) Hs) as Hd.
      replace (int_of_float (3600 - (now2 - o1))%Q + 60)
        with (int_of_float (3600 - (now2 - o1))%Q + 1 * 60) in Hd by lia.
      rewrite Z.div_add in Hd by lia. lia.
Qed.

Lemma wait_nonneg_and_nonincreasing_witness :
  let minute_state := record_query (record_query (init 2 50 []) 7 0) 7 10 in
  let hour_state := record_query (record_query (init 1000 2 []) 7 0) 7 100 in
  (0 <= 50)
  /\ (49 <= 50 /\ ((20 + 1 <= 21)%Q -> 49 < 50))
  /\ (55 <= 56 /\ ((220 + 60 <= 280)%Q -> 55 < 56)).
Proof.
  intros minute_state hour_state.
  destruct wait_nonneg_and_nonincreasing as (Ha & Hb & Hc).
  split; [|split].
  - apply (Ha minute_state 7 20%Q (MinuteLimit 50 2 2)). vm_compute. reflexivity.
  - apply (Hb minute_state 7 20%Q 21%Q 50 49 2 2 2 2).
    + vm_compute. discriminate.
    + vm_compute. reflexivity.
    + vm_compute. reflexivity.
    + repeat constructor; vm_compute; discriminate.
  - apply (Hc hour_state 7 220%Q 280%Q 3380 3320 56 55 2 2).
    + vm_compute. discriminate.
    + vm_compute. reflexivity.
    + vm_compute. reflexivity.
    + vm_compute. reflexivity.
Defined.

(** C3, the claim as worded, fails in two ways.  With limits 1 and 1 and
    one request recorded at t=0, the check at t=10 returns the
    minute-limit message with a wait of 50 seconds and the check at t=61
    returns the hour-limit message with a wait of 58 minutes: the wait
    grew.  With [max_per_minute = 2] and requests at t=0 and t=10, the
    checks at t=20.25 and t=20.5 return the same tuple, with a wait of 49
    seconds: the wait did not decrease. *)
Lemma wait_not_strictly_decreasing :
  (let self := record_query (init 1 1 []) 7 0 in
   let self1 := snd (check_rate_limit self 7 10) in
   fst (check_rate_limit self 7 10)
   = Returned (VTuple [VBool false; VStr (minute_message self 50 1 1)])
   /\ fst (check_rate_limit self1 7 61)
      = Returned (VTuple [VBool false; VStr (hour_message self 58 1)])
   /\ ~ 58 * 60 < 50)
  /\ (let self := record_query (record_query (init 2 50 []) 7 0) 7 10 in
      let self1 := snd (check_rate_limit self 7 (81 # 4)) in
      (81 # 4 < 41 # 2)%Q
      /\ fst (check_rate_limit self 7 (81 # 4))
         = Returned (VTuple [VBool false; VStr (minute_message self 49 2 2)])
      /\ fst (check_rate_limit self1 7 (41 # 2))
         = fst (check_rate_limit self 7 (81 # 4))).
Proof.
  split.
  - vm_compute. repeat split; try reflexivity. discriminate.
  - vm_compute. repeat split; reflexivity.
Qed.

(** C4 (denial is a result), as the code has it.  With limits of at least
    1, [check_rate_limit] raises nothing and returns a pair
    [(allowed, message)]; when [allowed] is false the message is the text
    of the limit that was hit, which carries the wait: in seconds for the
    minute limit, in minutes for the hour limit. *)
Theorem denial_is_returned (self : t) (user_id : Z) (now : Q) :
  1 <= max_per_minute self ->
  1 <= max_per_hour self ->
  exists (allowed : bool) (message : string),
    fst (check_rate_limit self user_id now)
    = Returned (VTuple [VBool allowed; VStr message])
    /\ (allowed = false ->
        (exists wait_seconds qlm qlh,
           fst (check_verdict self user_id now)
           = Returned (MinuteLimit wait_seconds qlm qlh)
           /\ message = minute_message self wait_seconds qlm qlh)
        \/ (exists wait_seconds qlh,
              fst (check_verdict self user_id now)
              = Returned (HourLimit wait_seconds (wait_seconds / 60) qlh)
              /\ message = hour_message self (wait_seconds / 60) qlh)).
Proof.
  intros Hm Hh.
  destruct (check_verdict_returns self user_id now Hm Hh) as [v Hv].
  rewrite check_rate_limit_fst, Hv. destruct v as [|w a b|w m b]; simpl.
  - exists true, EmptyString. split; [reflexivity | discriminate].
  - exists false, (minute_message self w a b). split; [reflexivity|].
    intros _. left. now exists w, a, b.
  - pose proof Hv as Hinv.
    apply check_verdict_hour_inv in Hinv as (_ & _ & _ & _ & -> & _).
    exists false, (hour_message self (w / 60) b). split; [reflexivity|].
    intros _. right. now exists w, b.
Qed.

Lemma denial_is_returned_witness :
  let self := record_query (record_query (init 2 50 []) 7 0) 7 10 in
  exists (allowed : bool) (message : string),
    fst (check_rate_limit self 7 20)
    = Returned (VTuple [VBool allowed; VStr message]).
Proof.
  intros self.
  destruct (denial_is_returned self 7 20%Q) as (allowed & message & H & _).
  - vm_compute. discriminate.
  - vm_compute. discriminate.
  - now exists allowed, message.
Defined.

(** C4, the claim as worded, at a denial: the tuple that is returned has
    two components, [False] and the message; there is no wait-seconds
    component. *)
Lemma denial_is_not_a_triple :
  let self := record_query (record_query (init 2 50 []) 7 0) 7 10 in
  fst (check_rate_limit self 7 20)
  = Returned (VTuple [VBool false; VStr (minute_message self 50 2 2)])
  /\ forall wait_seconds message,
       fst (check_rate_limit self 7 20)
       <> Returned (VTuple [VBool false; VInt wait_seconds; VStr message]).
Proof.
  intros self.
  assert (H : fst (check_rate_limit self 7 20)
              = Returned (VTuple [VBool false; VStr (minute_message self 50 2 2)]))
    by (vm_compute; reflexivity).
  split; [exact H|]. intros w message. rewrite H. discriminate.
Qed.

(** A limit of 0 makes the wait computation raise for a caller without
    history: [next] on an exhausted generator, [user_timestamps[0]] on an
    empty deque. *)
Example check_raises_with_zero_limit :
  fst (check_rate_limit (init 0 50 []) 7 0) = Raised StopIteration
  /\ fst (check_rate_limit (init 10 0 []) 7 0) = Raised IndexError.
Proof. split; reflexivity. Qed.

End RateLimiterSpec.

(** ** Resolver, fan-out and report *)

Module IpResolverFacts.
Import Py IpResolver.

Lemma resolve_fqdn_returns getaddrinfo fqdn timeout :
  exists ips, resolve_fqdn getaddrinfo fqdn timeout = Returned ips.
Proof.
  unfold resolve_fqdn, setdefaulttimeout.
  destruct ((timeout <? - max_timeout) || (max_timeout <? timeout));
    simpl; [now exists []|].
  destruct (timeout <? 0); simpl; [now exists []|].
  destruct (getaddrinfo fqdn) as [addr_info|e]; simpl; [eauto|].
  destruct e; now exists [].
Qed.

(** The timeouts [setdefaulttimeout] accepts. *)
Lemma setdefaulttimeout_accepts timeout :
  0 <= timeout <= max_timeout -> setdefaulttimeout timeout = Returned tt.
Proof.
  intros [H0 Hmax]. unfold setdefaulttimeout.
  assert (H1 : (timeout <? - max_timeout) = false)
    by (apply Z.ltb_ge; unfold max_timeout in *; lia).
  assert (H2 : (max_timeout <? timeout) = false) by (apply Z.ltb_ge; lia).
  assert (H3 : (timeout <? 0) = false) by (apply Z.ltb_ge; lia).
  now rewrite H1, H2, H3.
Qed.

Lemma setdefaulttimeout_refuses timeout :
  timeout < 0 \/ max_timeout < timeout ->
  exists e, setdefaulttimeout timeout = Raised e.
Proof.
  intros H. unfold setdefaulttimeout.
  destruct ((timeout <? - max_timeout) || (max_timeout <? timeout)) eqn:E;
    [eauto|].
  apply orb_false_iff in E as [_ E]. apply Z.ltb_ge in E.
  assert (H3 : (timeout <? 0) = true) by (apply Z.ltb_lt; lia).
  rewrite H3. eauto.
Qed.

Lemma resolve_fqdn_success getaddrinfo fqdn timeout addr_info :
  0 <= timeout <= max_timeout ->
  getaddrinfo fqdn = Returned addr_info ->
  resolve_fqdn getaddrinfo fqdn timeout
  = Returned (sorted (list_of_set (List.map info_address addr_info))).
Proof.
  intros Ht Hg. unfold resolve_fqdn.
  rewrite (setdefaulttimeout_accepts _ Ht). simpl. now rewrite Hg.
Qed.

Lemma resolve_fqdn_failure getaddrinfo fqdn timeout e :
  getaddrinfo fqdn = Raised e ->
  resolve_fqdn getaddrinfo fqdn timeout = Returned [].
Proof.
  intros Hg. unfold resolve_fqdn.
  destruct (setdefaulttimeout timeout) as [[]|e']; simpl; [|now destruct e'].
  rewrite Hg. simpl. now destruct e.
Qed.

(** The futures of a batch, by submission index. *)
Lemma future_lookup net timeout fqdns i outcome h :
  imap (fun i fqdn => (resolve_fqdn (net i) fqdn timeout, fqdn)) fqdns !! i
  = Some (outcome, h)
  <-> fqdns !! i = Some h /\ outcome = resolve_fqdn (net i) h timeout.
Proof.
  rewrite list_lookup_imap. destruct (fqdns !! i) as [h'|]; simpl.
  - split; [intros [= <- <-] | intros [[= ->] ->]]; auto.
  - split; [discriminate | intros [[=] _]].
Qed.

(** The keys after collecting a schedule: the keys already there, and the
    hostname of every future of the schedule. *)
Lemma collect_dom (futures : list (result (list string) * string)) schedule :
  forall (results : gmap string (list string)) (h : string),
    h ∈ dom (foldl (collect futures) results schedule)
    <-> h ∈ dom results
        \/ exists i outcome, i ∈ schedule /\ futures !! i = Some (outcome, h).
Proof.
  induction schedule as [|j schedule IH]; intros results h; simpl.
  - split; [auto | intros [H | (i & o & Hin & _)]; [exact H|]].
    now apply not_elem_of_nil in Hin.
  - rewrite IH. unfold collect.
    destruct (futures !! j) as [[outcome fqdn]|] eqn:Hj.
    + assert (Hd : forall v : list string,
                 h ∈ dom (<[fqdn := v]> results) <-> h = fqdn \/ h ∈ dom results).
      { intros v. now rewrite dom_insert_L, elem_of_union, elem_of_singleton. }
      assert (Hgoal : (h = fqdn \/ h ∈ dom results)
                      \/ (exists i o, i ∈ schedule /\ futures !! i = Some (o, h))
                      <-> h ∈ dom results
                          \/ exists i o, i ∈ j :: schedule
                                         /\ futures !! i = Some (o, h)).
      { split.
        - intros [[-> | H] | (i & o & Hin & Hi)]; [right | now left | right].
          + exists j, outcome. split; [left | exact Hj].
          + exists i, o. split; [now right | exact Hi].
        - intros [H | (i & o & Hin & Hi)]; [left; now right|].
          apply elem_of_cons in Hin as [-> | Hin].
          + left. left. rewrite Hj in Hi. congruence.
          + right. eauto. }
      destruct outcome; rewrite Hd; exact Hgoal.
    + split.
      * intros [H | (i & o & Hin & Hi)]; [now left | right].
        exists i, o. split; [now right | exact Hi].
      * intros [H | (i & o & Hin & Hi)]; [now left | right].
        apply elem_of_cons in Hin as [-> | Hin]; [congruence | eauto].
Qed.

(** Every value collected is what one of the tasks resolved for its key. *)
Lemma collect_values net timeout fqdns schedule :
  let futures :=
    imap (fun i fqdn => (resolve_fqdn (net i) fqdn timeout, fqdn)) fqdns in
  forall (results : gmap string (list string)),
    (forall h ips, results !! h = Some ips ->
       exists i, fqdns !! i = Some h
                 /\ resolve_fqdn (net i) h timeout = Returned ips) ->
    forall h ips, foldl (collect futures) results schedule !! h = Some ips ->
      exists i, fqdns !! i = Some h
                /\ resolve_fqdn (net i) h timeout = Returned ips.
Proof.
  intros futures. induction schedule as [|j schedule IH]; intros results Hinv;
    simpl; [exact Hinv|].
  apply IH. intros h ips. unfold collect.
  destruct (futures !! j) as [[outcome fqdn]|] eqn:Hj; [|apply Hinv].
  apply future_lookup in Hj as [Hj ->].
  destruct (resolve_fqdn_returns (net j) fqdn timeout) as [ips' Hr].
  rewrite Hr. rewrite lookup_insert.
  destruct (decide (fqdn = h)) as [<-|Hne]; [|apply Hinv].
  intros [= <-]. eauto.
Qed.

Lemma resolve_multiple_fqdns_returns net schedule fqdns max_workers timeout :
  1 <= max_workers ->
  exists results,
    resolve_multiple_fqdns net schedule fqdns max_workers timeout
    = Returned results.
Proof.
  intros Hw. unfold resolve_multiple_fqdns.
  assert (Hgt : (max_workers <=? 0) = false) by (apply Z.leb_gt; lia).
  rewrite Hgt. eauto.
Qed.

Lemma StronglySorted_sublist {A} (R : relation A) (l1 l2 : list A) :
  l1 `sublist_of` l2 -> StronglySorted R l2 -> StronglySorted R l1.
Proof.
  induction 1 as [|x l1 l2 Hsub IH|x l1 l2 Hsub IH]; intros Hs.
  - constructor.
  - apply StronglySorted_cons in Hs as [Hall Hs].
    apply StronglySorted_cons. split; [|auto].
    rewrite Forall_forall in *. intros y Hy. apply Hall.
    eapply elem_of_sublist; eauto.
  - apply StronglySorted_cons in Hs as [_ Hs]. auto.
Qed.

(** The loop of [get_operator_infrastructure] appends, in the order of the
    iteration, an entry for some of the hostnames it visits. *)
Lemma active_loop_sublist resolution_results l :
  forall acc, exists tail,
    foldl (append_if_active resolution_results) acc l = acc ++ tail
    /\ (fqdn <$> tail) `sublist_of` l.
Proof.
  induction l as [|h l IH]; intros acc; simpl.
  - exists []. split; [now rewrite app_nil_r | constructor].
  - unfold append_if_active at 2.
    destruct (default [] (resolution_results !! h)) as [|ip ips'].
    + destruct (IH acc) as (tail & -> & Hsub). exists tail.
      split; [reflexivity | now constructor].
    + destruct (IH (acc ++ [mk_host_entry h (ip :: ips') true]))
        as (tail & -> & Hsub).
      exists (mk_host_entry h (ip :: ips') true :: tail).
      split; [now rewrite <- app_assoc | simpl; now constructor].
Qed.

(** The loop of [get_operator_infrastructure_with_all_fqdns] appends an
    entry for every hostname it visits. *)
Lemma all_loop_fqdns resolution_results l :
  forall acc,
    fqdn <$> foldl (append_entry resolution_results) acc l
    = (fqdn <$> acc) ++ l.
Proof.
  induction l as [|h l IH]; intros acc; simpl.
  - now rewrite app_nil_r.
  - rewrite IH. unfold append_entry. rewrite fmap_app. simpl.
    now rewrite <- app_assoc.
Qed.

End IpResolverFacts.
Import IpResolverFacts.

Module IpResolverSpec.
Import Py IpResolver.

(** C5 (resolution failure is not an error).  For every lookup behaviour,
    hostname and timeout, [resolve_fqdn] returns a list and raises nothing;
    whenever the lookup raises, whether [socket.timeout],
    [socket.gaierror] or any other exception, the list is empty. *)
Theorem resolve_never_raises (getaddrinfo : dns_lookup) (fqdn : string)
    (timeout : Z) :
  exists ips,
    resolve_fqdn getaddrinfo fqdn timeout = Returned ips
    /\ forall e, getaddrinfo fqdn = Raised e -> ips = [].
Proof.
  destruct (resolve_fqdn_returns getaddrinfo fqdn timeout) as [ips Hr].
  exists ips. split; [exact Hr|]. intros e He.
  rewrite (resolve_fqdn_failure _ _ _ e He) in Hr. congruence.
Qed.

Lemma resolve_never_raises_witness :
  resolve_fqdn (fun _ => Raised SocketGaierror) "epdg.example" 5 = Returned []
  /\ resolve_fqdn (fun _ => Raised SocketTimeout) "epdg.example" 5 = Returned []
  /\ resolve_fqdn (fun _ => Raised (OtherException "OSError")) "epdg.example" 5
     = Returned [].
Proof.
  assert (H : forall e,
             resolve_fqdn (fun _ => Raised e) "epdg.example" 5 = Returned []).
  { intros e.
    destruct (resolve_never_raises (fun _ => Raised e) "epdg.example" 5)
      as (ips & Hr & Hempty).
    rewrite Hr. f_equal. exact (Hempty e eq_refl). }
  repeat split; apply H.
Defined.

(** C6 (dedup and sort).  When the lookup returns a list of entries, which
    it is asked for only under a timeout that [setdefaulttimeout] accepts
    ([0 <= timeout <= max_timeout]), [resolve_fqdn] returns their addresses
    without duplicates and in the order of [str]; the result holds exactly
    the addresses of the entries, and it is the only such list.  Entries
    with addresses 10.0.0.1, 10.0.0.1 and ::1 give ["10.0.0.1"; "::1"]. *)
Theorem resolve_dedups_and_sorts :
  (forall (getaddrinfo : dns_lookup) (fqdn : string) (timeout : Z)
          (addr_info : list addrinfo),
     0 <= timeout <= max_timeout ->
     getaddrinfo fqdn = Returned addr_info ->
     exists ips,
       resolve_fqdn getaddrinfo fqdn timeout = Returned ips
       /\ NoDup ips
       /\ StronglySorted str_le ips
       /\ (forall a, a ∈ ips <-> a ∈ List.map info_address addr_info)
       /\ (forall l, NoDup l -> StronglySorted str_le l ->
             (forall a, a ∈ l <-> a ∈ List.map info_address addr_info) ->
             l = ips))
  /\ (let addr_info :=
        [mk_addrinfo 2 1 6 EmptyString (SockaddrIn "10.0.0.1" 0);
         mk_addrinfo 2 1 6 EmptyString (SockaddrIn "10.0.0.1" 0);
         mk_addrinfo 10 1 6 EmptyString (SockaddrIn6 "::1" 0 0 0)] in
      resolve_fqdn (fun _ => Returned addr_info) "epdg.example" 5
      = Returned ["10.0.0.1"; "::1"]).
Proof.
  split; [|vm_compute; reflexivity].
  intros getaddrinfo fqdn timeout addr_info Ht Hg.
  exists (sorted (list_of_set (List.map info_address addr_info))).
  assert (Hperm : sorted (list_of_set (List.map info_address addr_info))
                  ≡ₚ list_of_set (List.map info_address addr_info))
    by apply sorted_Permutation.
  assert (Helem : forall a,
             a ∈ sorted (list_of_set (List.map info_address addr_info))
             <-> a ∈ List.map info_address addr_info).
  { intros a. rewrite Hperm. apply list_of_set_elem. }
  split; [now apply resolve_fqdn_success|].
  split; [rewrite Hperm; apply list_of_set_NoDup|].
  split; [apply sorted_Sorted|]. split; [exact Helem|].
  intros l Hnd Hs Hl. apply sorted_unique; [|exact Hs].
  apply NoDup_Permutation; [exact Hnd | apply list_of_set_NoDup|].
  intros a. now rewrite Hl, list_of_set_elem.
Qed.

Lemma resolve_dedups_and_sorts_witness :
  let addr_info :=
    [mk_addrinfo 10 1 6 EmptyString (SockaddrIn6 "2001:db8::2" 0 0 0);
     mk_addrinfo 2 1 6 EmptyString (SockaddrIn "192.0.2.7" 0);
     mk_addrinfo 2 1 6 EmptyString (SockaddrIn "192.0.2.7" 0)] in
  exists ips,
    resolve_fqdn (fun _ => Returned addr_info) "epdg.example" 5 = Returned ips
    /\ NoDup ips /\ StronglySorted str_le ips.
Proof.
  intros addr_info.
  destruct (proj1 resolve_dedups_and_sorts
              (fun _ => Returned addr_info) "epdg.example" 5 addr_info)
    as (ips & Hr & Hnd & Hs & _).
  - unfold max_timeout. lia.
  - reflexivity.
  - exists ips. auto.
Defined.
(** C7 (total coverage).  With [max_workers >= 1], for every list of
    hostnames, every timeout, every behaviour of the network and every
    order in which the futures complete, [resolve_multiple_fqdns] returns a
    dict whose keys are exactly the input hostnames; each hostname is
    mapped to the list one of its tasks resolved, empty or not. *)
Theorem resolve_all_covers_input (net : nat -> dns_lookup)
    (schedule : list nat) (fqdns : list string) (max_workers timeout : Z) :
  1 <= max_workers ->
  valid_schedule schedule fqdns ->
  exists results,
    resolve_multiple_fqdns net schedule fqdns max_workers timeout
    = Returned results
    /\ dom results = list_to_set fqdns
    /\ forall h, h ∈ fqdns ->
         exists ips i,
           results !! h = Some ips
           /\ fqdns !! i = Some h
           /\ resolve_fqdn (net i) h timeout = Returned ips.
Proof.
  intros Hw Hsched.
  destruct (resolve_multiple_fqdns_returns net schedule fqdns max_workers
              timeout Hw) as [results Hr].
  exists results. split; [exact Hr|].
  unfold resolve_multiple_fqdns in Hr.
  destruct (max_workers <=? 0); [discriminate|]. injection Hr as <-.
  set (futures := imap _ fqdns).
  assert (Hdom : forall h, h ∈ dom (foldl (collect futures) ∅ schedule)
                           <-> h ∈ fqdns).
  { intros h. rewrite collect_dom, dom_empty_L. split.
    - intros [H | (i & o & _ & Hi)]; [now apply not_elem_of_empty in H|].
      apply future_lookup in Hi as [Hi _].
      apply list_elem_of_lookup. eauto.
    - intros Hin. right. apply list_elem_of_lookup in Hin as [i Hi].
      exists i, (resolve_fqdn (net i) h timeout). split.
      + unfold valid_schedule in Hsched. rewrite Hsched.
        apply elem_of_seq. apply lookup_lt_Some in Hi. lia.
      + apply future_lookup. auto. }
  split.
  - apply set_eq. intros h. rewrite Hdom. now rewrite elem_of_list_to_set.
  - intros h Hin. apply Hdom, elem_of_dom in Hin as [ips Hips].
    destruct (collect_values net timeout fqdns schedule ∅) with (h := h) (ips := ips)
      as (i & Hi & Hres); [intros ? ?; now rewrite lookup_empty | exact Hips |].
    eauto.
Qed.

Lemma resolve_all_covers_input_witness :
  let net := fun (i : nat) (h : string) =>
    if String.eqb h "epdg.example"
    then Returned [mk_addrinfo 2 1 6 EmptyString (SockaddrIn "192.0.2.7" 0)]
    else Raised SocketGaierror in
  let fqdns := ["ims.example"; "epdg.example"; "bsf.example"] in
  exists results,
    resolve_multiple_fqdns net [2; 0; 1]%nat fqdns 10 5 = Returned results
    /\ dom results = list_to_set fqdns.
Proof.
  intros net fqdns.
  destruct (resolve_all_covers_input net [2; 0; 1]%nat fqdns 10 5)
    as (results & Hr & Hdom & _).
  - lia.
  - unfold valid_schedule. simpl.
    change [2; 0; 1]%nat with ([2]%nat ++ [0; 1]%nat).
    symmetry. apply (Permutation_app_comm [0; 1]%nat [2]%nat).
  - exists results. auto.
Defined.

(** C8 (report totals and order).  With [max_workers >= 1], both report
    builders return a report whose [total_fqdns] is the number of candidate
    hostnames [k], whose host list has at most [k] entries (exactly [k]
    when unresolved hosts are included) and is ordered by hostname. *)
Theorem report_totals_and_order (net : nat -> dns_lookup) (schedule : list nat)
    (start_time end_time : Q) (operator_name : string) (fqdns : list string)
    (pairs : list (Z * Z)) (max_workers timeout : Z) :
  1 <= max_workers ->
  (exists report,
     get_operator_infrastructure net schedule start_time end_time
       operator_name fqdns pairs max_workers timeout = Returned report
     /\ total_fqdns report = Z.of_nat (length fqdns)
     /\ (length (active_fqdns report) <= length fqdns)%nat
     /\ StronglySorted str_le (fqdn <$> active_fqdns report))
  /\ (exists report,
        get_operator_infrastructure_with_all_fqdns net schedule start_time
          end_time operator_name fqdns pairs max_workers timeout
        = Returned report
        /\ all_total_fqdns report = Z.of_nat (length fqdns)
        /\ length (all_fqdns report) = length fqdns
        /\ StronglySorted str_le (fqdn <$> all_fqdns report)).
Proof.
  intros Hw.
  destruct (resolve_multiple_fqdns_returns net schedule fqdns max_workers
              timeout Hw) as [results Hr].
  unfold get_operator_infrastructure,
    get_operator_infrastructure_with_all_fqdns.
  rewrite Hr. simpl. split.
  - eexists. split; [reflexivity|]. simpl. split; [reflexivity|].
    destruct (active_loop_sublist results (sorted fqdns) [])
      as (tail & -> & Hsub).
    simpl. split.
    + rewrite <- (length_fmap fqdn), <- (sorted_length fqdns).
      now apply sublist_length.
    + eapply StronglySorted_sublist; [exact Hsub | apply sorted_Sorted].
  - eexists. split; [reflexivity|]. simpl. split; [reflexivity|].
    pose proof (all_loop_fqdns results (sorted fqdns) []) as Hall.
    simpl in Hall. split.
    + rewrite <- (length_fmap fqdn), Hall. apply sorted_length.
    + rewrite Hall. apply sorted_Sorted.
Qed.

Lemma report_totals_and_order_witness :
  let net := fun (i : nat) (h : string) =>
    if String.eqb h "epdg.example"
    then Returned [mk_addrinfo 2 1 6 EmptyString (SockaddrIn "192.0.2.7" 0)]
    else Raised SocketGaierror in
  let fqdns := ["ims.example"; "epdg.example"; "bsf.example"] in
  exists report,
    get_operator_infrastructure net [2; 0; 1]%nat 0 (3 # 2) "Example Mobile"
      fqdns [(1, 262)] 10 5 = Returned report
    /\ total_fqdns report = 3
    /\ (length (active_fqdns report) <= 3)%nat.
Proof.
  intros net fqdns.
  destruct (report_totals_and_order net [2; 0; 1]%nat 0 (3 # 2)
              "Example Mobile" fqdns [(1, 262)] 10 5)
    as [(report & Hr & Ht & Hl & _) _]; [lia|].
  exists report. auto.
Defined.

End IpResolverSpec.

(** ** Rate limiter: statistics, reset and the gate of main.py *)

Module RateLimiterExtraFacts.
Import Py RateLimiter.

Lemma count_since_app bound l1 l2 :
  count_since bound (l1 ++ l2) = count_since bound l1 + count_since bound l2.
Proof.
  unfold count_since. rewrite List.filter_app, length_app. lia.
Qed.

Lemma count_since_nonneg bound l : 0 <= count_since bound l.
Proof. unfold count_since. lia. Qed.

Lemma count_since_le_length bound l :
  count_since bound l <= Z.of_nat (length l).
Proof.
  unfold count_since. pose proof (List.filter_length_le (fun ts => Qgeb ts bound) l).
  lia.
Qed.

Lemma count_since_none bound l :
  Forall (fun ts => (ts < bound)%Q) l -> count_since bound l = 0.
Proof.
  unfold count_since. induction 1 as [|ts l Hts _ IH]; [reflexivity|]. simpl.
  destruct (Qgeb ts bound) eqn:E; [|exact IH].
  apply Qgeb_true in E. lra.
Qed.

Lemma count_since_all bound l :
  Forall (fun ts => (bound <= ts)%Q) l -> count_since bound l = Z.of_nat (length l).
Proof.
  unfold count_since. induction 1 as [|ts l Hts _ IH]; [reflexivity|]. simpl.
  apply Qgeb_true in Hts. rewrite Hts. simpl. lia.
Qed.

Lemma count_since_anti bound1 bound2 l :
  (bound1 <= bound2)%Q -> count_since bound2 l <= count_since bound1 l.
Proof.
  intros Hb. unfold count_since. induction l as [|ts l IH]; [reflexivity|]. simpl.
  destruct (Qgeb ts bound2) eqn:E2.
  - apply Qgeb_true in E2.
    assert (E1 : Qgeb ts bound1 = true) by (apply Qgeb_true; lra).
    rewrite E1. simpl. lia.
  - destruct (Qgeb ts bound1); simpl; lia.
Qed.

(** The entries a purge at [now] drops are not counted by any window that
    starts at [now - 3600] or later. *)
Lemma count_since_purge now bound l :
  (now - 3600 <= bound)%Q ->
  count_since bound (purge now l) = count_since bound l.
Proof.
  intros Hb. destruct (purge_split now l) as (removed & Heq & Hold).
  rewrite Heq at 2. rewrite count_since_app, (count_since_none bound removed); [lia|].
  eapply Forall_impl; [exact Hold|]. simpl. intros ts Hts. lra.
Qed.

Lemma purge_length now l : (length (purge now l) <= length l)%nat.
Proof.
  destruct (purge_split now l) as (removed & Heq & _).
  rewrite Heq at 2. rewrite length_app. lia.
Qed.

(** On a deque in chronological order the purge keeps exactly the entries
    of the last hour. *)
Lemma purge_length_sorted now l :
  StronglySorted Qle l ->
  Z.of_nat (length (purge now l)) = count_since (now - 3600)%Q l.
Proof.
  intros Hs. rewrite <- (count_since_purge now) by lra.
  symmetry. apply count_since_all.
  pose proof (purge_sorted now l Hs) as Hp.
  destruct (purge now l) as [|ts0 rest] eqn:E; [constructor|].
  pose proof (purge_head now l ts0 rest E) as Hh.
  apply StronglySorted_cons in Hp as [Hall _].
  constructor; [lra|]. eapply Forall_impl; [exact Hall|]. simpl. intros ts Hts. lra.
Qed.

Lemma with_user_queries_id self : with_user_queries self (user_queries self) = self.
Proof. now destruct self. Qed.

(** The sum [get_global_stats] folds, after one entry is replaced. *)
Lemma total_insert hour_ago (uq : gmap Z (list Q)) u d :
  map_fold (fun _ timestamps total => total + count_since hour_ago timestamps)
           0 (<[u := d]> uq)
  = map_fold (fun _ timestamps total => total + count_since hour_ago timestamps)
             0 uq
    - count_since hour_ago (default [] (uq !! u)) + count_since hour_ago d.
Proof.
  set (f := fun (_ : Z) (timestamps : list Q) total =>
              total + count_since hour_ago timestamps).
  assert (Hcomm : forall (j1 j2 : Z) (z1 z2 : list Q) (y : Z),
             f j1 z1 (f j2 z2 y) = f j2 z2 (f j1 z1 y))
    by (intros; unfold f; lia).
  destruct (uq !! u) as [old|] eqn:Hu; simpl.
  - rewrite <- insert_delete_eq.
    rewrite (map_fold_insert_L f); [|intros; apply Hcomm | apply lookup_delete_eq].
    rewrite (map_fold_delete_L f 0 u old uq); [|intros; apply Hcomm | exact Hu].
    unfold f. lia.
  - rewrite (map_fold_insert_L f); [|intros; apply Hcomm | exact Hu].
    unfold f. change (count_since hour_ago []) with 0. lia.
Qed.

End RateLimiterExtraFacts.
Import RateLimiterExtraFacts.

Module RateLimiterExtra.
Import Py RateLimiter.

(** X1.  [get_user_stats] never reports more queries in the last minute
    than in the last hour, nor more in the last hour than the deque
    holds; both counts are non-negative. *)
Theorem user_stats_bounds (self : t) (user_id : Z) (now : Q) :
  let stats := get_user_stats self user_id now in
  0 <= stats_queries_last_minute stats <= stats_queries_last_hour stats
  /\ stats_queries_last_hour stats <= Z.of_nat (length (timestamps self user_id)).
Proof.
  simpl. split; [split|].
  - apply count_since_nonneg.
  - apply count_since_anti. lra.
  - apply count_since_le_length.
Qed.

(** X2.  A check, of any caller, does not change what [get_user_stats]
    reports from then on: the entries the purge drops are older than any
    window the statistics count. *)
Theorem stats_unchanged_by_check (self : t) (checked user_id : Z)
    (now later : Q) :
  (now <= later)%Q ->
  get_user_stats (snd (check_rate_limit self checked now)) user_id later
  = get_user_stats self user_id later.
Proof.
  intros Hle. rewrite check_rate_limit_snd, check_verdict_state.
  destruct (is_admin self checked) eqn:Hadm; [reflexivity|].
  unfold get_user_stats. rewrite timestamps_insert.
  destruct (decide (checked = user_id)) as [->|Hne]; [|reflexivity].
  fold (timestamps self user_id).
  rewrite !count_since_purge by lra. reflexivity.
Qed.

Lemma stats_unchanged_by_check_witness :
  let self := record_query (record_query (init 2 50 []) 7 0) 7 3000 in
  timestamps (snd (check_rate_limit self 7 3700)) 7 = [3000%Q]
  /\ get_user_stats (snd (check_rate_limit self 7 3700)) 7 3710
     = get_user_stats self 7 3710.
Proof.
  intros self. split; [vm_compute; reflexivity|].
  apply (stats_unchanged_by_check self 7 7 3700 3710). vm_compute. discriminate.
Defined.

(** X3.  On a deque in chronological order, the usage figures that a
    denial interpolates into its message are the figures
    [get_user_stats] reports at the same instant. *)
Theorem denial_counts_match_stats (self : t) (user_id : Z) (now : Q)
    (v : verdict) :
  StronglySorted Qle (timestamps self user_id) ->
  fst (check_verdict self user_id now) = Returned v ->
  let stats := get_user_stats self user_id now in
  match v with
  | Allowed => True
  | MinuteLimit _ queries_last_minute queries_last_hour =>
      queries_last_minute = stats_queries_last_minute stats
      /\ queries_last_hour = stats_queries_last_hour stats
  | HourLimit _ _ queries_last_hour =>
      queries_last_hour = stats_queries_last_hour stats
  end.
Proof.
  intros Hs Hv. simpl. destruct v as [|w a b|w m b]; [exact I| |].
  - apply check_verdict_minute_inv in Hv as (_ & _ & -> & -> & _).
    split; [apply count_since_purge; lra | now apply purge_length_sorted].
  - apply check_verdict_hour_inv in Hv as (_ & _ & _ & -> & _).
    now apply purge_length_sorted.
Qed.

Lemma denial_counts_match_stats_witness :
  let self := record_query (record_query (init 2 50 []) 7 0) 7 10 in
  2 = stats_queries_last_minute (get_user_stats self 7 20)
  /\ 2 = stats_queries_last_hour (get_user_stats self 7 20).
Proof.
  intros self.
  apply (denial_counts_match_stats self 7 20 (MinuteLimit 50 2 2)).
  - repeat constructor; vm_compute; discriminate.
  - vm_compute. reflexivity.
Defined.

(** X4.  After [reset_user], the next check of that caller (not an admin,
    limits of at least 1) is allowed whatever was recorded before, and it
    leaves the caller with an empty deque. *)
Theorem reset_then_check_admits (self : t) (user_id : Z) (now : Q) :
  user_id ∉ admin_user_ids self ->
  1 <= max_per_minute self ->
  1 <= max_per_hour self ->
  check_rate_limit (reset_user self user_id) user_id now
  = (Returned (VTuple [VBool true; VStr EmptyString]),
     with_user_queries self (<[user_id := []]> (user_queries self))).
Proof.
  intros Hadm Hm Hh.
  assert (Hts : timestamps (reset_user self user_id) user_id = []).
  { unfold timestamps, reset_user. simpl. now rewrite lookup_delete_eq. }
  assert (Em : (max_per_minute self <=? count_since (now - 60)%Q []) = false)
    by (apply Z.leb_gt; change (count_since (now - 60)%Q []) with 0; lia).
  assert (Eh : (max_per_hour self <=? Z.of_nat (@length Q [])) = false)
    by (apply Z.leb_gt; simpl; lia).
  unfold check_rate_limit, check_verdict, is_admin. rewrite Hts.
  change (admin_user_ids (reset_user self user_id)) with (admin_user_ids self).
  change (max_per_minute (reset_user self user_id)) with (max_per_minute self).
  change (max_per_hour (reset_user self user_id)) with (max_per_hour self).
  rewrite bool_decide_eq_false_2 by assumption.
  change (purge now []) with (@nil Q). cbv zeta. rewrite Em, Eh.
  unfold reset_user, with_user_queries. simpl. now rewrite insert_delete_eq.
Qed.

Lemma reset_then_check_admits_witness :
  let self := record_query (record_query (init 2 50 []) 7 0) 7 10 in
  fst (check_rate_limit self 7 20) <> Returned (VTuple [VBool true; VStr EmptyString])
  /\ fst (check_rate_limit (reset_user self 7) 7 20)
     = Returned (VTuple [VBool true; VStr EmptyString]).
Proof.
  intros self. split; [vm_compute; discriminate|].
  rewrite (reset_then_check_admits self 7 20); [reflexivity| | |].
  - intros H. apply (bool_decide_pack _) in H. vm_compute in H. exact H.
  - vm_compute. discriminate.
  - vm_compute. discriminate.
Defined.

(** X5.  Checking a caller who is not an admin and has no entry stores an
    empty deque for that caller: [get_global_stats] then counts one more
    user, with the same number of queries. *)
Theorem check_registers_unseen_caller (self : t) (user_id : Z)
    (now later : Q) :
  user_id ∉ admin_user_ids self ->
  user_queries self !! user_id = None ->
  let self' := snd (check_rate_limit self user_id now) in
  user_queries self' !! user_id = Some []
  /\ total_users (get_global_stats self' later)
     = total_users (get_global_stats self later) + 1
  /\ total_queries_last_hour (get_global_stats self' later)
     = total_queries_last_hour (get_global_stats self later).
Proof.
  intros Hadm Hnone. simpl.
  rewrite check_rate_limit_snd, check_verdict_state. unfold is_admin.
  rewrite bool_decide_eq_false_2 by assumption.
  unfold timestamps. rewrite Hnone. simpl. split; [apply lookup_insert_eq|].
  split.
  - rewrite map_size_insert_None by assumption. lia.
  - rewrite total_insert, Hnone. simpl.
    change (count_since (later - 3600)%Q []) with 0. lia.
Qed.

Lemma check_registers_unseen_caller_witness :
  let self := record_query (init 2 50 [1]) 7 0 in
  total_users (get_global_stats self 5) = 1
  /\ total_users (get_global_stats (snd (check_rate_limit self 8 5)) 5) = 1 + 1.
Proof.
  intros self. split; [vm_compute; reflexivity|].
  destruct (check_registers_unseen_caller self 8 5 5) as (_ & H & _).
  - intros H. apply (bool_decide_pack _) in H. vm_compute in H. exact H.
  - vm_compute. reflexivity.
  - rewrite H. vm_compute. reflexivity.
Defined.

(** X6.  [record_query] at [now] adds exactly one to the caller's hourly
    count and to the global hourly count, as long as they are read within
    the hour. *)
Theorem record_counts_once (self : t) (user_id : Z) (now later : Q) :
  (later - 3600 <= now)%Q ->
  let self' := record_query self user_id now in
  stats_queries_last_hour (get_user_stats self' user_id later)
  = stats_queries_last_hour (get_user_stats self user_id later) + 1
  /\ total_queries_last_hour (get_global_stats self' later)
     = total_queries_last_hour (get_global_stats self later) + 1.
Proof.
  intros Hle. simpl.
  assert (Hone : count_since (later - 3600)%Q [now] = 1).
  { apply (count_since_all _ [now]). constructor; [exact Hle | constructor]. }
  split.
  - unfold record_query. rewrite timestamps_insert, decide_True by reflexivity.
    rewrite count_since_app, Hone. reflexivity.
  - rewrite total_insert. fold (timestamps self user_id).
    rewrite count_since_app, Hone. lia.
Qed.

Lemma record_counts_once_witness :
  let self := record_query (record_query (init 2 50 []) 7 0) 8 10 in
  total_queries_last_hour (get_global_stats (record_query self 7 20) 30)
  = total_queries_last_hour (get_global_stats self 30) + 1.
Proof.
  intros self.
  apply (record_counts_once self 7 20 30). vm_compute. discriminate.
Defined.

(** X7.  The global hourly count of [get_global_stats] is the sum, over
    the callers that have an entry, of the hourly count [get_user_stats]
    reports for each, and [total_users] is the number of those callers. *)
Theorem global_stats_sum_user_stats (self : t) (now : Q) :
  let users := fst <$> map_to_list (user_queries self) in
  total_queries_last_hour (get_global_stats self now)
  = foldr (fun user_id total =>
             total + stats_queries_last_hour (get_user_stats self user_id now))
          0 users
  /\ total_users (get_global_stats self now) = Z.of_nat (length users).
Proof.
  simpl. split; [|now rewrite length_fmap, length_map_to_list].
  rewrite map_fold_foldr.
  assert (Hin : forall u ts, (u, ts) ∈ map_to_list (user_queries self) ->
                             timestamps self u = ts).
  { intros u ts H. apply elem_of_map_to_list in H. unfold timestamps. now rewrite H. }
  induction (map_to_list (user_queries self)) as [|[u ts] l IH]; [reflexivity|].
  simpl. rewrite IH.
  - rewrite (Hin u ts) by left. reflexivity.
  - intros u' ts' H. apply Hin. now right.
Qed.

End RateLimiterExtra.

Module GateFacts.
Import Py RateLimiter BotMain.

(** What [rate_limit_check] does, by the verdict of the check. *)
Lemma rate_limit_check_cases self user_id check_time record_time :
  rate_limit_check self user_id check_time record_time
  = let checked := snd (check_verdict self user_id check_time) in
    match fst (check_verdict self user_id check_time) with
    | Raised e => (Raised e, checked)
    | Returned Allowed =>
        (Returned (true, []), record_query checked user_id record_time)
    | Returned (MinuteLimit w a b) =>
        (Returned (false, [VStr (minute_message self w a b)]), checked)
    | Returned (HourLimit _ m b) =>
        (Returned (false, [VStr (hour_message self m b)]), checked)
    end.
Proof.
  unfold rate_limit_check, check_rate_limit.
  destruct (check_verdict self user_id check_time) as [[[| |]|e] checked];
    reflexivity.
Qed.

Lemma check_verdict_allowed_inv self user_id now :
  is_admin self user_id = false ->
  fst (check_verdict self user_id now) = Returned Allowed ->
  count_since (now - 60)%Q (purge now (timestamps self user_id))
  < max_per_minute self
  /\ Z.of_nat (length (purge now (timestamps self user_id))) < max_per_hour self.
Proof.
  intros Hadm. unfold check_verdict. rewrite Hadm. simpl.
  destruct (_ <=? count_since _ _) eqn:Em.
  { destruct (next_reversed_since _ _); discriminate. }
  destruct (_ <=? Z.of_nat _) eqn:Eh.
  { destruct (purge now (timestamps self user_id)); discriminate. }
  intros _. apply Z.leb_gt in Em, Eh. auto.
Qed.

Lemma check_verdict_config self user_id now :
  max_per_minute (snd (check_verdict self user_id now)) = max_per_minute self
  /\ max_per_hour (snd (check_verdict self user_id now)) = max_per_hour self
  /\ admin_user_ids (snd (check_verdict self user_id now)) = admin_user_ids self.
Proof.
  rewrite <- check_rate_limit_snd.
  apply (run_config self (CheckRateLimit user_id) now).
Qed.

(** The gate changes neither the limits nor the admin set. *)
Lemma rate_limit_check_config self user_id check_time record_time :
  let self' := snd (rate_limit_check self user_id check_time record_time) in
  max_per_minute self' = max_per_minute self
  /\ max_per_hour self' = max_per_hour self
  /\ admin_user_ids self' = admin_user_ids self.
Proof.
  simpl. rewrite rate_limit_check_cases.
  pose proof (check_verdict_config self user_id check_time) as Hc.
  destruct (fst (check_verdict self user_id check_time)) as [[| |]|e]; simpl;
    exact Hc.
Qed.

(** The gate touches the entry of the calling user only. *)
Lemma rate_limit_check_other self user_id other check_time record_time :
  other <> user_id ->
  timestamps (snd (rate_limit_check self user_id check_time record_time)) other
  = timestamps self other.
Proof.
  intros Hne. rewrite rate_limit_check_cases.
  assert (Hc : timestamps (snd (check_verdict self user_id check_time)) other
               = timestamps self other).
  { rewrite check_verdict_state. destruct (is_admin self user_id); [reflexivity|].
    rewrite timestamps_insert, decide_False by congruence. reflexivity. }
  destruct (fst (check_verdict self user_id check_time)) as [[| |]|e]; simpl;
    try exact Hc.
  unfold record_query. rewrite timestamps_insert, decide_False by congruence.
  exact Hc.
Qed.

(** For an admin the gate is a bare [record_query]. *)
Lemma rate_limit_check_admin self user_id check_time record_time :
  user_id ∈ admin_user_ids self ->
  rate_limit_check self user_id check_time record_time
  = (Returned (true, []), record_query self user_id record_time).
Proof.
  intros Hadm. rewrite rate_limit_check_cases.
  unfold check_verdict, is_admin. rewrite bool_decide_eq_true_2 by assumption.
  reflexivity.
Qed.

Lemma sorted_last_is_max (l : list Q) (x : Q) :
  StronglySorted Qle l -> last l = Some x -> Forall (fun ts => (ts <= x)%Q) l.
Proof.
  intros Hs Hl. apply last_Some in Hl as [l' ->].
  apply Forall_app. split.
  - apply Forall_forall. intros ts Hin.
    eapply (StronglySorted_app_1_elem_of Qle); [exact Hs | exact Hin|].
    apply list_elem_of_singleton. reflexivity.
  - constructor; [lra | constructor].
Qed.

Lemma purge_Forall (P : Q -> Prop) now l : Forall P l -> Forall P (purge now l).
Proof.
  intros H. destruct (purge_split now l) as (removed & Heq & _).
  rewrite Heq in H. now apply Forall_app in H as [_ H].
Qed.

(** An admitted caller who is not an admin: the deque afterwards. *)
Lemma rate_limit_check_admitted (self : t) (user_id : Z)
    (check_time record_time : Q) (texts : list value) :
  user_id ∉ admin_user_ids self ->
  fst (rate_limit_check self user_id check_time record_time)
  = Returned (true, texts) ->
  let self' := snd (rate_limit_check self user_id check_time record_time) in
  timestamps self' user_id
  = purge check_time (timestamps self user_id) ++ [record_time]
  /\ count_since (check_time - 60)%Q (timestamps self' user_id)
     <= max_per_minute self
  /\ Z.of_nat (length (timestamps self' user_id)) <= max_per_hour self.
Proof.
  intros Hadm. simpl. rewrite rate_limit_check_cases.
  assert (Hna : is_admin self user_id = false)
    by (unfold is_admin; now apply bool_decide_eq_false_2).
  pose proof (check_verdict_allowed_inv self user_id check_time Hna) as Hinv.
  pose proof (timestamps_after_check self user_id check_time Hna) as Hts.
  destruct (fst (check_verdict self user_id check_time)) as [[| |]|e]; simpl;
    try discriminate.
  intros _. destruct (Hinv eq_refl) as [Hm Hh].
  assert (Heq : timestamps
                  (record_query (snd (check_verdict self user_id check_time))
                     user_id record_time) user_id
                = purge check_time (timestamps self user_id) ++ [record_time]).
  { unfold record_query. rewrite timestamps_insert, decide_True by reflexivity.
    now rewrite Hts. }
  rewrite Heq. split; [reflexivity|]. split.
  - rewrite count_since_app.
    pose proof (count_since_le_length (check_time - 60)%Q [record_time]) as H1.
    simpl in H1. lia.
  - rewrite length_app. simpl. lia.
Qed.

End GateFacts.
Import GateFacts.

Module GateSpec.
Import Py RateLimiter BotMain.

(** X8.  When [rate_limit_check] lets a caller who is not an admin
    through, the caller's deque is the purged deque plus the recorded
    timestamp, it holds at most [max_per_hour] entries, and at most
    [max_per_minute] of them lie in the minute before the check. *)
Theorem admitted_request_within_limits (self : t) (user_id : Z)
    (check_time record_time : Q) (texts : list value) :
  user_id ∉ admin_user_ids self ->
  fst (rate_limit_check self user_id check_time record_time)
  = Returned (true, texts) ->
  let self' := snd (rate_limit_check self user_id check_time record_time) in
  timestamps self' user_id
  = purge check_time (timestamps self user_id) ++ [record_time]
  /\ count_since (check_time - 60)%Q (timestamps self' user_id)
     <= max_per_minute self
  /\ Z.of_nat (length (timestamps self' user_id)) <= max_per_hour self.
Proof. apply rate_limit_check_admitted. Qed.

Lemma admitted_request_within_limits_witness :
  let self := record_query (init 2 50 []) 7 0 in
  timestamps (snd (rate_limit_check self 7 10 11)) 7 = [0%Q] ++ [11%Q]
  /\ count_since (10 - 60)%Q (timestamps (snd (rate_limit_check self 7 10 11)) 7)
     <= 2.
Proof.
  intros self.
  destruct (admitted_request_within_limits self 7 10 11 []) as (H1 & H2 & _).
  - intros H. apply (bool_decide_pack _) in H. vm_compute in H. exact H.
  - vm_compute. reflexivity.
  - split; [exact H1 | exact H2].
Defined.

(** X9.  Behind the gate, the deque of a caller who is not an admin never
    holds more than [max_per_hour] entries (none, if the limit is not
    positive), whatever commands are served, by whom and when. *)
Theorem gate_bounds_deque (calls : list (Z * Q * Q)) :
  forall (self : t) (user_id : Z),
    user_id ∉ admin_user_ids self ->
    Z.of_nat (length (timestamps self user_id)) <= Z.max 0 (max_per_hour self) ->
    Z.of_nat (length (timestamps (serve self calls) user_id))
    <= Z.max 0 (max_per_hour self).
Proof.
  induction calls as [|[[caller check_time] record_time] calls IH];
    intros self user_id Hadm Hlen; [exact Hlen|].
  unfold serve. simpl.
  pose proof (rate_limit_check_config self caller check_time record_time)
    as (_ & Hh & Ha). simpl in Hh, Ha.
  rewrite <- Hh. apply IH; [now rewrite Ha|]. rewrite Hh.
  destruct (decide (user_id = caller)) as [->|Hne];
    [|now rewrite rate_limit_check_other].
  assert (Hna : is_admin self caller = false)
    by (unfold is_admin; now apply bool_decide_eq_false_2).
  pose proof (purge_length check_time (timestamps self caller)) as Hp.
  destruct (fst (rate_limit_check self caller check_time record_time))
    as [[[] texts]|e] eqn:Hr.
  - destruct (rate_limit_check_admitted self caller check_time record_time
                texts Hadm Hr) as (_ & _ & Hle). simpl in Hle. lia.
  - rewrite rate_limit_check_cases in *.
    destruct (fst (check_verdict self caller check_time)) as [[| |]|e'];
      simpl in *; try discriminate;
      rewrite timestamps_after_check by assumption; lia.
  - rewrite rate_limit_check_cases in *.
    destruct (fst (check_verdict self caller check_time)) as [[| |]|e'];
      simpl in *; try discriminate;
      rewrite timestamps_after_check by assumption; lia.
Qed.

Lemma gate_bounds_deque_witness :
  let self := init 10 2 [] in
  let calls := [(7, 0%Q, 0%Q); (7, 1%Q, 1%Q); (7, 2%Q, 2%Q); (8, 3%Q, 3%Q);
                (7, 4%Q, 4%Q)] in
  timestamps (serve self calls) 7 = [0%Q; 1%Q]
  /\ Z.of_nat (length (timestamps (serve self calls) 7)) <= Z.max 0 2.
Proof.
  intros self calls. split; [vm_compute; reflexivity|].
  apply (gate_bounds_deque calls self 7).
  - intros H. apply (bool_decide_pack _) in H. vm_compute in H. exact H.
  - vm_compute. discriminate.
Defined.

(** X10.  For an admin the gate only records: every command of an admin
    appends one timestamp and nothing is ever purged, so after any
    sequence of commands the admin's deque has grown by the number of
    commands that admin sent. *)
Theorem admin_deque_grows (calls : list (Z * Q * Q)) :
  forall (self : t) (user_id : Z),
    user_id ∈ admin_user_ids self ->
    length (timestamps (serve self calls) user_id)
    = (length (timestamps self user_id)
       + length (List.filter (fun call => Z.eqb (fst (fst call)) user_id) calls))%nat.
Proof.
  induction calls as [|[[caller check_time] record_time] calls IH];
    intros self user_id Hadm; [simpl; lia|].
  unfold serve. simpl.
  pose proof (rate_limit_check_config self caller check_time record_time)
    as (_ & _ & Ha). simpl in Ha.
  fold (serve (snd (rate_limit_check self caller check_time record_time)) calls).
  rewrite IH by now rewrite Ha.
  destruct (Z.eqb_spec caller user_id) as [->|Hne].
  - rewrite rate_limit_check_admin by assumption. simpl.
    unfold record_query. rewrite timestamps_insert, decide_True by reflexivity.
    rewrite length_app. simpl. lia.
  - rewrite rate_limit_check_other by congruence. lia.
Qed.

Lemma admin_deque_grows_witness :
  let self := init 1 1 [42] in
  let calls := [(42, 0%Q, 0%Q); (42, 0%Q, 0%Q); (7, 1%Q, 1%Q); (42, 5000%Q, 5000%Q)] in
  length (timestamps (serve self calls) 42) = (0 + 3)%nat.
Proof.
  intros self calls.
  apply (admin_deque_grows calls self 42).
  apply (bool_decide_unpack _). vm_compute. exact I.
Defined.
(** X11.  The wait of a denial on the minute limit is long enough: on a
    deque in chronological order, with [max_per_minute >= 1] and nothing
    recorded in between, a check made [wait_seconds + 1] seconds later (or
    any time after that) finds no entry in the last minute and is not
    denied on the minute limit. *)
Theorem minute_wait_is_sufficient (self : t) (user_id : Z) (now later : Q)
    (wait_seconds qlm qlh : Z) :
  StronglySorted Qle (timestamps self user_id) ->
  1 <= max_per_minute self ->
  fst (check_verdict self user_id now)
  = Returned (MinuteLimit wait_seconds qlm qlh) ->
  (now + inject_Z (wait_seconds + 1) <= later)%Q ->
  let self1 := snd (check_verdict self user_id now) in
  count_since (later - 60)%Q (purge later (timestamps self1 user_id)) = 0
  /\ forall w a b,
       fst (check_verdict self1 user_id later) <> Returned (MinuteLimit w a b).
Proof.
  intros Hs Hm Hv Hlater. simpl.
  pose proof Hv as Hinv. apply check_verdict_minute_inv in Hinv as (Hadm & _).
  destruct (RateLimiterSpec.minute_wait_uses_newest _ _ _ _ _ _ Hs Hv)
    as (newest & Hlast & Hge & ->).
  assert (Hw : (60 - (now - newest)
                < inject_Z (int_of_float (60 - (now - newest)) + 1))%Q).
  { rewrite int_of_float_floor by lra. apply Qlt_floor. }
  assert (Hzero : count_since (later - 60)%Q
                    (purge later
                       (timestamps (snd (check_verdict self user_id now)) user_id))
                  = 0).
  { apply count_since_none. rewrite timestamps_after_check by assumption.
    do 2 apply purge_Forall.
    eapply Forall_impl; [exact (sorted_last_is_max _ _ Hs Hlast)|].
    simpl. intros ts Hts. lra. }
  split; [exact Hzero|]. intros w a b Hv2.
  apply check_verdict_minute_inv in Hv2 as (_ & Hle & -> & _).
  rewrite Hzero in Hle.
  pose proof (check_verdict_config self user_id now) as (Hcfg & _). lia.
Qed.

Lemma minute_wait_is_sufficient_witness :
  let self := record_query (record_query (init 2 50 []) 7 0) 7 10 in
  count_since (71 - 60)%Q
    (purge 71 (timestamps (snd (check_verdict self 7 20)) 7)) = 0.
Proof.
  intros self.
  refine (proj1 (minute_wait_is_sufficient self 7 20 71 50 2 2 _ _ _ _)).
  - repeat constructor; vm_compute; discriminate.
  - vm_compute. discriminate.
  - vm_compute. reflexivity.
  - vm_compute. discriminate.
Defined.

(** X12.  The wait of a denial on the hour limit is not shorter than
    needed: with nothing recorded in between, a check made at any time up
    to [wait_seconds] later is not allowed either; this covers the wait
    the message shows, [wait_minutes] minutes, which is [wait_seconds]
    rounded down. *)
Theorem hour_denial_persists_through_wait (self : t) (user_id : Z) (now : Q)
    (wait_seconds wait_minutes qlh : Z) :
  fst (check_verdict self user_id now)
  = Returned (HourLimit wait_seconds wait_minutes qlh) ->
  let self1 := snd (check_verdict self user_id now) in
  (forall later, (later <= now + inject_Z wait_seconds)%Q ->
     fst (check_verdict self1 user_id later) <> Returned Allowed)
  /\ fst (check_verdict self1 user_id (now + inject_Z (60 * wait_minutes))%Q)
     <> Returned Allowed.
Proof.
  intros Hv. simpl.
  pose proof Hv as Hinv.
  apply check_verdict_hour_inv in Hinv
    as (Hadm & _ & Hmax & Hlen & -> & oldest & rest & Hp & ->).
  pose proof (purge_head _ _ _ _ Hp) as Hhead.
  assert (Hfloor : (inject_Z (int_of_float (3600 - (now - oldest)))
                    <= 3600 - (now - oldest))%Q).
  { rewrite int_of_float_floor by lra. apply Qfloor_le. }
  assert (Hgen : forall later,
             (later <= now + inject_Z (int_of_float (3600 - (now - oldest))))%Q ->
             fst (check_verdict (snd (check_verdict self user_id now))
                    user_id later) <> Returned Allowed).
  { intros later Hlater Hallowed.
    assert (Hadm1 : is_admin (snd (check_verdict self user_id now)) user_id = false).
    { unfold is_admin in *.
      now rewrite (proj2 (proj2 (check_verdict_config self user_id now))). }
    apply (check_verdict_allowed_inv _ _ _ Hadm1) in Hallowed as [_ Hlt].
    rewrite timestamps_after_check, Hp in Hlt by assumption.
    rewrite purge_fixed in Hlt by lra.
    rewrite (proj1 (proj2 (check_verdict_config self user_id now))) in Hlt.
    rewrite Hp in Hlen. lia. }
  split; [exact Hgen|]. apply Hgen.
  assert (H0 : 0 <= int_of_float (3600 - (now - oldest))%Q)
    by (apply int_of_float_nonneg; lra).
  pose proof (Z.mul_div_le (int_of_float (3600 - (now - oldest))%Q) 60) as Hdiv.
  assert (Hq : (inject_Z (60 * (int_of_float (3600 - (now - oldest)) / 60))
                <= inject_Z (int_of_float (3600 - (now - oldest))))%Q).
  { rewrite <- Zle_Qle. lia. }
  lra.
Qed.

Lemma hour_denial_persists_through_wait_witness :
  let self := record_query (record_query (init 1000 2 []) 7 0) 7 100 in
  fst (check_verdict self 7 200) = Returned (HourLimit 3400 56 2)
  /\ fst (check_verdict (snd (check_verdict self 7 200)) 7
            (200 + inject_Z (60 * 56))%Q) <> Returned Allowed.
Proof.
  intros self.
  assert (H : fst (check_verdict self 7 200) = Returned (HourLimit 3400 56 2))
    by (vm_compute; reflexivity).
  split; [exact H|].
  exact (proj2 (hour_denial_persists_through_wait self 7 200 3400 56 2 H)).
Defined.

(** X13.  One second past the wait of a denial on the hour limit, the
    oldest entry is purged: a check then counts fewer entries in the hour
    than the denial did, and if the caller was exactly at the limit it is
    not denied on the hour limit again. *)
Theorem hour_wait_is_sufficient (self : t) (user_id : Z) (now later : Q)
    (wait_seconds wait_minutes qlh : Z) :
  fst (check_verdict self user_id now)
  = Returned (HourLimit wait_seconds wait_minutes qlh) ->
  (now + inject_Z (wait_seconds + 1) <= later)%Q ->
  let self1 := snd (check_verdict self user_id now) in
  Z.of_nat (length (purge later (timestamps self1 user_id))) < qlh
  /\ (qlh = max_per_hour self ->
      forall w m b,
        fst (check_verdict self1 user_id later) <> Returned (HourLimit w m b)).
Proof.
  intros Hv Hlater. simpl.
  pose proof Hv as Hinv.
  apply check_verdict_hour_inv in Hinv
    as (Hadm & _ & Hmax & Hlen & -> & oldest & rest & Hp & ->).
  pose proof (purge_head _ _ _ _ Hp) as Hhead.
  assert (Hw : (3600 - (now - oldest)
                < inject_Z (int_of_float (3600 - (now - oldest)) + 1))%Q).
  { rewrite int_of_float_floor by lra. apply Qlt_floor. }
  assert (Hdrop : Z.of_nat (length
                    (purge later
                       (timestamps (snd (check_verdict self user_id now)) user_id)))
                  < qlh).
  { rewrite timestamps_after_check, Hp by assumption. simpl.
    assert (Hstale : Qgtb (later - oldest) 3600 = true)
      by (apply Qgtb_true; lra).
    rewrite Hstale. pose proof (purge_length later rest) as Hr.
    rewrite Hp in Hlen. simpl in Hlen. lia. }
  split; [exact Hdrop|]. intros Heq w m b Hv2.
  apply check_verdict_hour_inv in Hv2 as (_ & _ & Hmax2 & Hlen2 & _).
  rewrite (proj1 (proj2 (check_verdict_config self user_id now))) in Hmax2.
  lia.
Qed.

Lemma hour_wait_is_sufficient_witness :
  let self := record_query (record_query (init 1000 2 []) 7 0) 7 100 in
  Z.of_nat (length (purge 3601 (timestamps (snd (check_verdict self 7 200)) 7)))
  < 2.
Proof.
  intros self.
  refine (proj1 (hour_wait_is_sufficient self 7 200 3601 3400 56 2 _ _)).
  - vm_compute. reflexivity.
  - vm_compute. discriminate.
Defined.

End GateSpec.

(** ** Resolver, fan-out and report: further properties *)

Module IpResolverExtraFacts.
Import Py IpResolver.

Lemma resolve_fqdn_clean getaddrinfo fqdn timeout ips :
  resolve_fqdn getaddrinfo fqdn timeout = Returned ips ->
  NoDup ips /\ StronglySorted str_le ips.
Proof.
  unfold resolve_fqdn.
  destruct (setdefaulttimeout timeout) as [[]|e']; simpl;
    [|destruct e'; intros [= <-]; split; constructor].
  destruct (getaddrinfo fqdn) as [addr_info|e]; simpl.
  - intros [= <-]. split; [|apply sorted_Sorted].
    rewrite sorted_Permutation. apply list_of_set_NoDup.
  - destruct e; intros [= <-]; split; constructor.
Qed.

Lemma resolve_fqdn_negative_timeout getaddrinfo fqdn timeout :
  timeout < 0 -> resolve_fqdn getaddrinfo fqdn timeout = Returned [].
Proof.
  intros Ht. unfold resolve_fqdn.
  destruct (setdefaulttimeout_refuses timeout) as [e ->]; [now left|].
  simpl. now destruct e.
Qed.

(** Collecting a schedule none of whose futures is for [h] leaves the
    entry of [h] alone. *)
Lemma collect_untouched (futures : list (result (list string) * string))
    (h : string) schedule :
  (forall j outcome, j ∈ schedule -> futures !! j <> Some (outcome, h)) ->
  forall results : gmap string (list string),
    foldl (collect futures) results schedule !! h = results !! h.
Proof.
  induction schedule as [|j schedule IH]; intros Hno results; [reflexivity|].
  simpl. rewrite IH by (intros k o Hk; apply Hno; now right).
  unfold collect. destruct (futures !! j) as [[outcome fqdn]|] eqn:Hj;
    [|reflexivity].
  assert (Hne : fqdn <> h).
  { intros ->. apply (Hno j outcome); [now left | exact Hj]. }
  destruct outcome; now rewrite lookup_insert_ne.
Qed.

(** The two loops over [sorted(fqdns)], in closed form. *)
Lemma all_loop_closed (resolution_results : gmap string (list string)) l :
  forall acc,
    foldl (append_entry resolution_results) acc l
    = acc ++ ((fun h : string =>
               mk_host_entry h (default [] (resolution_results !! h))
                 (0 <? Z.of_nat (length (default [] (resolution_results !! h)))))
              <$> l).
Proof.
  induction l as [|h l IH]; intros acc; simpl; [now rewrite app_nil_r|].
  rewrite IH. unfold append_entry. now rewrite <- app_assoc.
Qed.

Lemma active_loop_closed (resolution_results : gmap string (list string)) l :
  forall acc,
    foldl (append_if_active resolution_results) acc l
    = acc ++ List.filter resolved
               ((fun h : string =>
               mk_host_entry h (default [] (resolution_results !! h))
                 (0 <? Z.of_nat (length (default [] (resolution_results !! h)))))
                <$> l).
Proof.
  induction l as [|h l IH]; intros acc; simpl; [now rewrite app_nil_r|].
  rewrite IH. unfold append_if_active.
  destruct (default [] (resolution_results !! h)) as [|ip ips']; simpl;
    [reflexivity | now rewrite <- app_assoc].
Qed.

Lemma resolve_multiple_fqdns_values net schedule fqdns max_workers timeout
    results h ips :
  resolve_multiple_fqdns net schedule fqdns max_workers timeout
  = Returned results ->
  results !! h = Some ips ->
  exists i, fqdns !! i = Some h
            /\ resolve_fqdn (net i) h timeout = Returned ips.
Proof.
  unfold resolve_multiple_fqdns. destruct (max_workers <=? 0); [discriminate|].
  intros [= <-] Hips.
  apply (collect_values net timeout fqdns schedule ∅); [|exact Hips].
  intros ? ?. now rewrite lookup_empty.
Qed.

End IpResolverExtraFacts.
Import IpResolverExtraFacts.

Module IpResolverExtra.
Import Py IpResolver.

(** X14.  Whatever the lookup does and whatever the timeout,
    [resolve_fqdn] returns a list without duplicates that is in the order
    of [str]. *)
Theorem resolve_result_is_clean (getaddrinfo : dns_lookup) (fqdn : string)
    (timeout : Z) :
  exists ips,
    resolve_fqdn getaddrinfo fqdn timeout = Returned ips
    /\ NoDup ips /\ StronglySorted str_le ips.
Proof.
  destruct (resolve_fqdn_returns getaddrinfo fqdn timeout) as [ips Hr].
  exists ips. split; [exact Hr|]. eapply resolve_fqdn_clean, Hr.
Qed.

(** X15.  The result depends only on which addresses the lookup returns:
    two lookups whose entries carry the same addresses, in any order, with
    any repetitions and under any timeouts that [setdefaulttimeout]
    accepts, resolve to the same list. *)
Theorem resolve_ignores_order (lookup1 lookup2 : dns_lookup) (fqdn : string)
    (timeout1 timeout2 : Z) (infos1 infos2 : list addrinfo) :
  0 <= timeout1 <= max_timeout ->
  0 <= timeout2 <= max_timeout ->
  lookup1 fqdn = Returned infos1 ->
  lookup2 fqdn = Returned infos2 ->
  (forall a, a ∈ List.map info_address infos1
             <-> a ∈ List.map info_address infos2) ->
  resolve_fqdn lookup1 fqdn timeout1 = resolve_fqdn lookup2 fqdn timeout2.
Proof.
  intros Ht1 Ht2 H1 H2 Hsame.
  rewrite (resolve_fqdn_success _ _ _ _ Ht1 H1),
          (resolve_fqdn_success _ _ _ _ Ht2 H2).
  do 2 f_equal. unfold list_of_set. f_equal.
  apply set_eq. intros a. rewrite !elem_of_list_to_set. apply Hsame.
Qed.

Lemma resolve_ignores_order_witness :
  let v4 := mk_addrinfo 2 1 6 EmptyString (SockaddrIn "192.0.2.7" 0) in
  let v6 := mk_addrinfo 10 1 6 EmptyString (SockaddrIn6 "2001:db8::2" 0 0 0) in
  resolve_fqdn (fun _ => Returned [v4; v6; v4]) "epdg.example" 5
  = resolve_fqdn (fun _ => Returned [v6; v4]) "epdg.example" 30.
Proof.
  intros v4 v6.
  apply (resolve_ignores_order _ _ _ _ _ [v4; v6; v4] [v6; v4]);
    [unfold max_timeout; lia | unfold max_timeout; lia
    | reflexivity | reflexivity |].
  intros a. simpl. rewrite !elem_of_cons. intuition.
Defined.

(** X16.  A negative timeout makes every hostname look unresolved: the
    error of [setdefaulttimeout] is swallowed before any lookup, so
    the report has no active host, and the report on all hosts counts
    every hostname as inactive. *)
Theorem negative_timeout_resolves_nothing (net : nat -> dns_lookup)
    (schedule : list nat) (start_time end_time : Q) (operator_name : string)
    (fqdns : list string) (pairs : list (Z * Z)) (max_workers timeout : Z) :
  timeout < 0 ->
  1 <= max_workers ->
  (forall getaddrinfo h, resolve_fqdn getaddrinfo h timeout = Returned [])
  /\ (exists report,
        get_operator_infrastructure net schedule start_time end_time
          operator_name fqdns pairs max_workers timeout = Returned report
        /\ active_fqdns report = [])
  /\ (exists report,
        get_operator_infrastructure_with_all_fqdns net schedule start_time
          end_time operator_name fqdns pairs max_workers timeout
        = Returned report
        /\ active_count report = 0
        /\ inactive_count report = Z.of_nat (length fqdns)).
Proof.
  intros Ht Hw.
  destruct (resolve_multiple_fqdns_returns net schedule fqdns max_workers
              timeout Hw) as [results Hr].
  assert (Hempty : forall h, default [] (results !! h) = []).
  { intros h. destruct (results !! h) as [ips|] eqn:Hh; [|reflexivity]. simpl.
    destruct (resolve_multiple_fqdns_values _ _ _ _ _ _ _ _ Hr Hh)
      as (i & _ & Hi).
    rewrite resolve_fqdn_negative_timeout in Hi by assumption. congruence. }
  assert (Hnone : forall l,
             List.filter resolved
               ((fun h : string =>
                   mk_host_entry h (default [] (results !! h))
                     (0 <? Z.of_nat (length (default [] (results !! h)))))
                <$> l) = []).
  { induction l as [|h l IH]; [reflexivity|]. simpl.
    rewrite (Hempty h). simpl. exact IH. }
  split; [intros; now apply resolve_fqdn_negative_timeout|].
  unfold get_operator_infrastructure,
    get_operator_infrastructure_with_all_fqdns.
  rewrite Hr. simpl. split.
  - eexists. split; [reflexivity|]. simpl.
    rewrite active_loop_closed. simpl. apply Hnone.
  - eexists. split; [reflexivity|]. simpl.
    rewrite all_loop_closed. simpl. rewrite Hnone. simpl. split; [reflexivity|lia].
Qed.

Lemma negative_timeout_resolves_nothing_witness :
  let net := fun (i : nat) (h : string) =>
    Returned [mk_addrinfo 2 1 6 EmptyString (SockaddrIn "192.0.2.7" 0)] in
  exists report,
    get_operator_infrastructure net [0; 1]%nat 0 1 "Example Mobile"
      ["epdg.example"; "ims.example"] [(1, 262)] 10 (-1) = Returned report
    /\ active_fqdns report = [].
Proof.
  intros net.
  destruct (negative_timeout_resolves_nothing net [0; 1]%nat 0 1
              "Example Mobile" ["epdg.example"; "ims.example"] [(1, 262)]
              10 (-1)) as (_ & H & _); [lia | lia | exact H].
Defined.

(** X17.  The bot's [resolve_fqdn] is a port of the MCP server's that
    differs only through the timeout it sets first: for every timeout that
    [setdefaulttimeout] accepts the two return the same list for the same
    lookup, and for a timeout it refuses the bot's returns the empty list
    whatever the MCP server's returns. *)
Theorem port_agrees_with_mcp_resolver (getaddrinfo : dns_lookup)
    (fqdn : string) (timeout : Z) :
  (0 <= timeout <= max_timeout ->
   resolve_fqdn getaddrinfo fqdn timeout
   = McpServer.resolve_fqdn getaddrinfo fqdn)
  /\ (timeout < 0 \/ max_timeout < timeout ->
      resolve_fqdn getaddrinfo fqdn timeout = Returned []).
Proof.
  split.
  - intros Ht. unfold resolve_fqdn, McpServer.resolve_fqdn.
    rewrite (setdefaulttimeout_accepts _ Ht). simpl.
    destruct (getaddrinfo fqdn) as [addr_info|e]; simpl; [reflexivity|].
    now destruct e.
  - intros Ht. unfold resolve_fqdn.
    destruct (setdefaulttimeout_refuses timeout Ht) as [e ->].
    simpl. now destruct e.
Qed.

Lemma port_agrees_with_mcp_resolver_witness :
  let found := fun _ : string =>
    Returned [mk_addrinfo 2 1 6 EmptyString (SockaddrIn "192.0.2.7" 0)] in
  resolve_fqdn found "epdg.example" 5 = McpServer.resolve_fqdn found "epdg.example"
  /\ resolve_fqdn found "epdg.example" 9223372037 = Returned []
  /\ McpServer.resolve_fqdn found "epdg.example" = Returned ["192.0.2.7"].
Proof.
  intros found.
  destruct (port_agrees_with_mcp_resolver found "epdg.example" 5) as [H5 _].
  destruct (port_agrees_with_mcp_resolver found "epdg.example" 9223372037)
    as [_ Hbig].
  split; [apply H5; unfold max_timeout; lia|].
  split; [apply Hbig; right; unfold max_timeout; lia|].
  vm_compute. reflexivity.
Defined.

(** X18.  Duplicate hostnames: last writer wins.  The entry of a hostname
    is what the task that completes last among the tasks for that hostname
    resolved. *)
Theorem last_completed_task_wins (net : nat -> dns_lookup)
    (before after : list nat) (i : nat) (fqdns : list string) (h : string)
    (max_workers timeout : Z) (ips : list string) :
  1 <= max_workers ->
  fqdns !! i = Some h ->
  (forall j, j ∈ after -> fqdns !! j <> Some h) ->
  resolve_fqdn (net i) h timeout = Returned ips ->
  exists results,
    resolve_multiple_fqdns net (before ++ i :: after) fqdns max_workers timeout
    = Returned results
    /\ results !! h = Some ips.
Proof.
  intros Hw Hi Hafter Hres.
  destruct (resolve_multiple_fqdns_returns net (before ++ i :: after) fqdns
              max_workers timeout Hw) as [results Hr].
  exists results. split; [exact Hr|].
  unfold resolve_multiple_fqdns in Hr.
  destruct (max_workers <=? 0); [discriminate|]. injection Hr as <-.
  rewrite foldl_app. simpl. rewrite collect_untouched.
  - unfold collect.
    rewrite (proj2 (future_lookup net timeout fqdns i
                      (resolve_fqdn (net i) h timeout) h)) by auto.
    rewrite Hres. apply lookup_insert_eq.
  - intros j outcome Hj Hf. apply future_lookup in Hf as [Hf _].
    now apply (Hafter j).
Qed.

Lemma last_completed_task_wins_witness :
  let net := fun (i : nat) (h : string) =>
    match i with
    | O => Returned [mk_addrinfo 2 1 6 EmptyString (SockaddrIn "192.0.2.7" 0)]
    | _ => Raised SocketGaierror
    end in
  exists results,
    resolve_multiple_fqdns net ([1; 2] ++ 0 :: [])%nat
      ["epdg.example"; "ims.example"; "epdg.example"] 10 5 = Returned results
    /\ results !! "epdg.example" = Some ["192.0.2.7"].
Proof.
  intros net.
  apply (last_completed_task_wins net [1; 2]%nat [] 0%nat).
  - lia.
  - reflexivity.
  - intros j Hj. now apply not_elem_of_nil in Hj.
  - vm_compute. reflexivity.
Defined.

(** X20.  Every entry of [active_fqdns] is a resolved host: its flag is
    true, its hostname is one of the candidates, and its address list is
    non-empty, free of duplicates and in the order of [str]. *)
Theorem active_entries_are_resolved (net : nat -> dns_lookup)
    (schedule : list nat) (start_time end_time : Q) (operator_name : string)
    (fqdns : list string) (pairs : list (Z * Z)) (max_workers timeout : Z) :
  1 <= max_workers ->
  exists report,
    get_operator_infrastructure net schedule start_time end_time
      operator_name fqdns pairs max_workers timeout = Returned report
    /\ forall entry, entry ∈ active_fqdns report ->
         resolved entry = true
         /\ fqdn entry ∈ fqdns
         /\ ips entry <> []
         /\ NoDup (ips entry)
         /\ StronglySorted str_le (ips entry).
Proof.
  intros Hw.
  destruct (resolve_multiple_fqdns_returns net schedule fqdns max_workers
              timeout Hw) as [results Hr].
  unfold get_operator_infrastructure. rewrite Hr. simpl.
  eexists. split; [reflexivity|]. simpl. rewrite active_loop_closed. simpl.
  intros entry Hin. apply list_elem_of_In, filter_In in Hin as [Hin Hres].
  apply list_elem_of_In, list_elem_of_fmap in Hin as (h & -> & Hh). simpl in *.
  split; [exact Hres|]. split; [now rewrite sorted_Permutation in Hh|].
  destruct (results !! h) as [ips|] eqn:Hl; simpl in *; [|discriminate].
  split; [destruct ips; [discriminate | congruence]|].
  destruct (resolve_multiple_fqdns_values _ _ _ _ _ _ _ _ Hr Hl) as (i & _ & Hi).
  eapply resolve_fqdn_clean, Hi.
Qed.

Lemma active_entries_are_resolved_witness :
  let net := fun (i : nat) (h : string) =>
    if String.eqb h "epdg.example"
    then Returned [mk_addrinfo 2 1 6 EmptyString (SockaddrIn "192.0.2.7" 0)]
    else Raised SocketGaierror in
  exists report,
    get_operator_infrastructure net [1; 0]%nat 0 1 "Example Mobile"
      ["ims.example"; "epdg.example"] [(1, 262)] 10 5 = Returned report
    /\ active_fqdns report
       = [mk_host_entry "epdg.example" ["192.0.2.7"] true].
Proof.
  intros net.
  destruct (active_entries_are_resolved net [1; 0]%nat 0 1 "Example Mobile"
              ["ims.example"; "epdg.example"] [(1, 262)] 10 5)
    as (report & Hr & _); [lia|].
  exists report. split; [exact Hr|].
  vm_compute in Hr. injection Hr as <-. reflexivity.
Defined.

(** X21.  The two report builders agree: on the same inputs, the active
    hosts of [get_operator_infrastructure] are exactly the resolved entries
    of [get_operator_infrastructure_with_all_fqdns], in the same order;
    [active_count] is their number, [active_count + inactive_count] is
    [total_fqdns], an entry is flagged resolved exactly when it has an
    address, and the hostnames of [all_fqdns] are the sorted candidates. *)
Theorem report_modes_agree (net : nat -> dns_lookup) (schedule : list nat)
    (start_time end_time : Q) (operator_name : string) (fqdns : list string)
    (pairs : list (Z * Z)) (max_workers timeout : Z) :
  1 <= max_workers ->
  exists active_report full_report,
    get_operator_infrastructure net schedule start_time end_time
      operator_name fqdns pairs max_workers timeout = Returned active_report
    /\ get_operator_infrastructure_with_all_fqdns net schedule start_time
         end_time operator_name fqdns pairs max_workers timeout
       = Returned full_report
    /\ active_fqdns active_report = List.filter resolved (all_fqdns full_report)
    /\ active_count full_report
       = Z.of_nat (length (active_fqdns active_report))
    /\ active_count full_report + inactive_count full_report
       = all_total_fqdns full_report
    /\ (forall entry, entry ∈ all_fqdns full_report ->
          (resolved entry = true <-> ips entry <> []))
    /\ fqdn <$> all_fqdns full_report = sorted fqdns.
Proof.
  intros Hw.
  destruct (resolve_multiple_fqdns_returns net schedule fqdns max_workers
              timeout Hw) as [results Hr].
  unfold get_operator_infrastructure,
    get_operator_infrastructure_with_all_fqdns.
  rewrite Hr. simpl. do 2 eexists.
  split; [reflexivity|]. split; [reflexivity|]. simpl.
  rewrite active_loop_closed, all_loop_closed. simpl.
  split; [reflexivity|]. split; [reflexivity|]. split; [lia|]. split.
  - intros entry Hin. apply list_elem_of_fmap in Hin as (h & -> & _). simpl.
    destruct (default [] (results !! h)); simpl; split;
      congruence || discriminate || auto.
  - rewrite <- list_fmap_compose. simpl. apply list_fmap_id.
Qed.

Lemma report_modes_agree_witness :
  let net := fun (i : nat) (h : string) =>
    if String.eqb h "epdg.example"
    then Returned [mk_addrinfo 2 1 6 EmptyString (SockaddrIn "192.0.2.7" 0)]
    else Raised SocketGaierror in
  exists active_report full_report,
    get_operator_infrastructure net [1; 0]%nat 0 1 "Example Mobile"
      ["ims.example"; "epdg.example"] [(1, 262)] 10 5 = Returned active_report
    /\ get_operator_infrastructure_with_all_fqdns net [1; 0]%nat 0 1
         "Example Mobile" ["ims.example"; "epdg.example"] [(1, 262)] 10 5
       = Returned full_report
    /\ active_fqdns active_report = List.filter resolved (all_fqdns full_report).
Proof.
  intros net.
  destruct (report_modes_agree net [1; 0]%nat 0 1 "Example Mobile"
              ["ims.example"; "epdg.example"] [(1, 262)] 10 5)
    as (r1 & r2 & H1 & H2 & H3 & _); [lia|].
  exists r1, r2. auto.
Defined.

(** X22.  For candidates without repetition and a schedule that completes
    every future, a hostname is listed in [active_fqdns] exactly when its
    own resolution returned at least one address. *)
Theorem active_iff_resolution_nonempty (net : nat -> dns_lookup)
    (schedule : list nat) (start_time end_time : Q) (operator_name : string)
    (fqdns : list string) (pairs : list (Z * Z)) (max_workers timeout : Z) :
  1 <= max_workers ->
  valid_schedule schedule fqdns ->
  NoDup fqdns ->
  exists report,
    get_operator_infrastructure net schedule start_time end_time
      operator_name fqdns pairs max_workers timeout = Returned report
    /\ forall i h, fqdns !! i = Some h ->
         (h ∈ fqdn <$> active_fqdns report
          <-> resolve_fqdn (net i) h timeout <> Returned []).
Proof.
  intros Hw Hsched Hnd.
  destruct (resolve_multiple_fqdns_returns net schedule fqdns max_workers
              timeout Hw) as [results Hr].
  unfold get_operator_infrastructure. rewrite Hr. simpl.
  eexists. split; [reflexivity|]. simpl. rewrite active_loop_closed. simpl.
  intros i h Hi.
  assert (Hval : results !! h
                 = match resolve_fqdn (net i) h timeout with
                   | Returned ips => Some ips
                   | Raised _ => Some []
                   end).
  { assert (Hdom : h ∈ dom results).
    { unfold resolve_multiple_fqdns in Hr.
      destruct (max_workers <=? 0); [discriminate|]. injection Hr as <-.
      apply collect_dom. right. exists i, (resolve_fqdn (net i) h timeout).
      split.
      - unfold valid_schedule in Hsched. rewrite Hsched.
        apply elem_of_seq. apply lookup_lt_Some in Hi. lia.
      - apply future_lookup. auto. }
    apply elem_of_dom in Hdom as [ips Hips].
    destruct (resolve_multiple_fqdns_values _ _ _ _ _ _ _ _ Hr Hips)
      as (j & Hj & Hres).
    assert (j = i) as -> by (eapply NoDup_lookup; eauto).
    now rewrite Hres. }
  destruct (resolve_fqdn_returns (net i) h timeout) as [ips Hips].
  rewrite Hips in *. split.
  - intros Hin. apply list_elem_of_fmap in Hin as (entry & -> & Hin).
    apply list_elem_of_In, filter_In in Hin as [Hin Hres].
    apply list_elem_of_In, list_elem_of_fmap in Hin as (h' & -> & _).
    simpl in *. rewrite Hval in Hres. simpl in Hres.
    destruct ips; [discriminate | discriminate].
  - intros Hne. apply list_elem_of_fmap.
    exists (mk_host_entry h ips true). split; [reflexivity|].
    apply list_elem_of_In, filter_In. split; [|reflexivity].
    apply list_elem_of_In, list_elem_of_fmap. exists h. split.
    + rewrite Hval. simpl. destruct ips; [congruence | reflexivity].
    + rewrite sorted_Permutation. apply list_elem_of_lookup. eauto.
Qed.

Lemma active_iff_resolution_nonempty_witness :
  let net := fun (i : nat) (h : string) =>
    if String.eqb h "epdg.example"
    then Returned [mk_addrinfo 2 1 6 EmptyString (SockaddrIn "192.0.2.7" 0)]
    else Raised SocketGaierror in
  exists report,
    get_operator_infrastructure net [1; 0]%nat 0 1 "Example Mobile"
      ["ims.example"; "epdg.example"] [(1, 262)] 10 5 = Returned report
    /\ "epdg.example" ∈ fqdn <$> active_fqdns report.
Proof.
  intros net.
  destruct (active_iff_resolution_nonempty net [1; 0]%nat 0 1 "Example Mobile"
              ["ims.example"; "epdg.example"] [(1, 262)] 10 5)
    as (report & Hr & Hiff).
  - lia.
  - unfold valid_schedule. simpl. apply perm_swap.
  - repeat constructor; rewrite ?elem_of_cons; simpl;
      [intros [H|H]; [discriminate | now apply not_elem_of_nil in H]
      | apply not_elem_of_nil].
  - exists report. split; [exact Hr|].
    apply (Hiff 1%nat "epdg.example" eq_refl). vm_compute. discriminate.
Defined.

End IpResolverExtra.

(** ** Formatter *)

Module FormatterFacts.
Import Py IpResolver Formatter.

Lemma chars_append (s1 s2 : string) :
  list_ascii_of_string (s1 +:+ s2)
  = list_ascii_of_string s1 ++ list_ascii_of_string s2.
Proof. induction s1 as [|c s1 IH]; simpl; [reflexivity | now rewrite IH]. Qed.

(** A character of [s.replace(old, new)] comes from [new], or from [s] and
    is not [old]. *)
Lemma replace_char_chars old new s c :
  In c (list_ascii_of_string (replace_char old new s)) ->
  In c (list_ascii_of_string new)
  \/ (In c (list_ascii_of_string s) /\ c <> old).
Proof.
  induction s as [|c0 s IH]; simpl; [tauto|].
  destruct (Ascii.eqb_spec c0 old) as [->|Hne].
  - rewrite chars_append, in_app_iff. intros [H|H]; [now left|].
    destruct (IH H) as [H'|[H' Hc]]; [now left | right; auto].
  - simpl. intros [<-|H]; [right; auto|].
    destruct (IH H) as [H'|[H' Hc]]; [now left | right; auto].
Qed.

Lemma replace_char_absent old new s :
  ~ In old (list_ascii_of_string s) -> replace_char old new s = s.
Proof.
  induction s as [|c s IH]; simpl; [reflexivity|]. intros Hno.
  destruct (Ascii.eqb_spec c old) as [->|Hne]; [tauto|].
  f_equal. apply IH. tauto.
Qed.

(** The loop with its [break], in closed form. *)
Lemma shown_lines_closed max_fqdns show_ips total todo :
  forall shown,
    0 <= shown <= max_fqdns ->
    shown_lines max_fqdns show_ips total shown todo
    = concat (fqdn_lines show_ips <$> take (Z.to_nat (max_fqdns - shown)) todo)
      ++ (if max_fqdns - shown <? Z.of_nat (length todo)
          then ["   ... and " +:+ str_of_int (total - max_fqdns) +:+ " more"]
          else []).
Proof.
  induction todo as [|fqdn_data rest IH]; intros shown Hs.
  - simpl. rewrite take_nil. simpl. change (Z.of_nat 0) with 0.
    destruct (max_fqdns - shown <? 0) eqn:E; [apply Z.ltb_lt in E; lia|reflexivity].
  - cbn [shown_lines]. destruct (max_fqdns <=? shown) eqn:E.
    + apply Z.leb_le in E. assert (shown = max_fqdns) as -> by lia.
      rewrite Z.sub_diag. simpl.
      destruct (0 <? Z.pos (Pos.of_succ_nat (length rest))) eqn:E2;
        [reflexivity | apply Z.ltb_ge in E2; lia].
    + apply Z.leb_gt in E. rewrite IH by lia.
      replace (Z.to_nat (max_fqdns - shown))
        with (S (Z.to_nat (max_fqdns - (shown + 1)))) by lia.
      cbn [take fmap list_fmap concat]. rewrite <- app_assoc. do 2 f_equal.
      cbn [length]. rewrite Nat2Z.inj_succ.
      destruct (max_fqdns - (shown + 1) <? Z.of_nat (length rest)) eqn:E1;
        destruct (max_fqdns - shown <? Z.succ (Z.of_nat (length rest))) eqn:E2;
        try reflexivity;
        [apply Z.ltb_lt in E1; apply Z.ltb_ge in E2
        |apply Z.ltb_ge in E1; apply Z.ltb_lt in E2]; lia.
Qed.

(** With at least one MNC/MCC pair, building [mcc_str] raises. *)
Lemma lines_raise_with_pairs report max_fqdns show_ips :
  mnc_mcc_pairs report <> [] ->
  format_operator_result_lines report max_fqdns show_ips
  = Raised (OtherException "TypeError").
Proof.
  intros Hne. unfold format_operator_result_lines.
  destruct (mnc_mcc_pairs report) as [|pair pairs] eqn:Hp; [congruence|].
  destruct (elements (list_to_set (List.map snd (pair :: pairs)) : gset Z))
    as [|item items] eqn:He.
  - exfalso. apply elements_empty_inv in He.
    assert (Hin : snd pair ∈ (list_to_set (List.map snd (pair :: pairs)) : gset Z)).
    { apply elem_of_list_to_set. simpl. left. }
    rewrite He in Hin. now apply not_elem_of_empty in Hin.
  - reflexivity.
Qed.

End FormatterFacts.
Import FormatterFacts.

Module FormatterSpec.
Import Py IpResolver Formatter.

(** X23.  The text [escape_markdown] returns contains no raw [<], [>],
    double quote or single quote, whatever the input. *)
Theorem escaped_text_has_no_markup (text : string) (c : ascii) :
  In c (list_ascii_of_string (escape_markdown text)) ->
  c <> "<"%char /\ c <> ">"%char /\ c <> double_quote /\ c <> single_quote.
Proof.
  unfold escape_markdown, html_escape. intros H.
  apply replace_char_chars in H as [H|[H H5]].
  { simpl in H. repeat split; intros ->; vm_compute in H; intuition discriminate. }
  apply replace_char_chars in H as [H|[H H4]].
  { simpl in H. repeat split; intros ->; vm_compute in H; intuition discriminate. }
  apply replace_char_chars in H as [H|[H H3]].
  { simpl in H. repeat split; intros ->; vm_compute in H; intuition discriminate. }
  apply replace_char_chars in H as [H|[H H2]].
  { simpl in H. repeat split; intros ->; vm_compute in H; intuition discriminate. }
  auto.
Qed.

Lemma escaped_text_has_no_markup_witness :
  escape_markdown "<b>" = "&lt;b&gt;" /\ ";"%char <> "<"%char.
Proof.
  split; [reflexivity|].
  apply (escaped_text_has_no_markup "<b>" ";"%char).
  vm_compute. tauto.
Defined.

(** X24.  A text without [&], [<], [>] and quotes is returned unchanged by
    [escape_markdown]. *)
Theorem plain_text_is_unchanged (text : string) :
  (forall c, In c (list_ascii_of_string text) ->
     c <> "&"%char /\ c <> "<"%char /\ c <> ">"%char
     /\ c <> double_quote /\ c <> single_quote) ->
  escape_markdown text = text.
Proof.
  intros Hplain. unfold escape_markdown, html_escape.
  rewrite (replace_char_absent "&") by (intros H; now apply Hplain in H).
  rewrite (replace_char_absent "<") by (intros H; now apply Hplain in H).
  rewrite (replace_char_absent ">") by (intros H; now apply Hplain in H).
  rewrite (replace_char_absent double_quote) by (intros H; now apply Hplain in H).
  apply replace_char_absent. intros H. now apply Hplain in H.
Qed.

Lemma plain_text_is_unchanged_witness :
  escape_markdown "epdg.example" = "epdg.example".
Proof.
  apply plain_text_is_unchanged. intros c H. vm_compute in H.
  repeat (destruct H as [<-|H]; [repeat split; discriminate|]).
  destruct H.
Defined.

(** X25.  A report that carries at least one MNC/MCC pair cannot be
    rendered: building [mcc_str] unpacks the items of a set of ints, which
    raises [TypeError], so [format_operator_result] and
    [format_operator_response] raise for every such report, in particular
    for every report [get_operator_infrastructure] builds from a
    non-empty pair list. *)
Theorem report_with_pairs_fails_to_render (net : nat -> dns_lookup)
    (schedule : list nat) (start_time end_time : Q) (operator_name : string)
    (fqdns : list string) (pairs : list (Z * Z)) (max_workers timeout : Z)
    (max_fqdns : Z) :
  1 <= max_workers ->
  pairs <> [] ->
  (forall report show_ips,
     mnc_mcc_pairs report = pairs ->
     format_operator_result report max_fqdns show_ips
     = Raised (OtherException "TypeError"))
  /\ (report ← get_operator_infrastructure net schedule start_time end_time
                 operator_name fqdns pairs max_workers timeout;
      format_operator_response operator_name report max_fqdns)
     = Raised (OtherException "TypeError").
Proof.
  intros Hw Hne.
  assert (Hres : forall report show_ips,
             mnc_mcc_pairs report = pairs ->
             format_operator_result report max_fqdns show_ips
             = Raised (OtherException "TypeError")).
  { intros report show_ips Hp. unfold format_operator_result.
    rewrite lines_raise_with_pairs by (rewrite Hp; exact Hne). reflexivity. }
  split; [exact Hres|].
  destruct (resolve_multiple_fqdns_returns net schedule fqdns max_workers
              timeout Hw) as [results Hr].
  unfold get_operator_infrastructure. rewrite Hr. simpl.
  unfold format_operator_response. rewrite Hres by reflexivity. reflexivity.
Qed.

Lemma report_with_pairs_fails_to_render_witness :
  let net := fun (i : nat) (h : string) =>
    Returned [mk_addrinfo 2 1 6 EmptyString (SockaddrIn "192.0.2.7" 0)] in
  (report ← get_operator_infrastructure net [0]%nat 0 1 "Example Mobile"
              ["epdg.example"] [(1, 262)] 10 5;
   format_operator_response "Example Mobile" report 20)
  = Raised (OtherException "TypeError").
Proof.
  intros net.
  refine (proj2 (report_with_pairs_fails_to_render net [0]%nat 0 1
                   "Example Mobile" ["epdg.example"] [(1, 262)] 10 5 20 _ _)).
  - lia.
  - discriminate.
Defined.

(** X26.  For a report without pairs and with active hosts, and
    [max_fqdns >= 0], [format_operator_result] renders the header, the
    count line, an empty line, the lines of the first [max_fqdns] hosts in
    order and, when there are more hosts than that, one closing line
    giving the number of hosts left out. *)
Theorem result_lists_first_hosts (report : infrastructure) (max_fqdns : Z)
    (show_ips : bool) :
  mnc_mcc_pairs report = [] ->
  active_fqdns report <> [] ->
  0 <= max_fqdns ->
  let count := Z.of_nat (length (active_fqdns report)) in
  format_operator_result report max_fqdns show_ips
  = Returned
      (str_join newline
         (["<b>" +:+ escape_markdown (operator report) +:+ "</b>";
           "   • Active FQDNs: " +:+ str_of_int count +:+ "/"
           +:+ str_of_int (total_fqdns report);
           EmptyString]
          ++ concat (fqdn_lines show_ips
                     <$> take (Z.to_nat max_fqdns) (active_fqdns report))
          ++ (if max_fqdns <? count
              then ["   ... and " +:+ str_of_int (count - max_fqdns) +:+ " more"]
              else []))).
Proof.
  intros Hp Ha Hm. simpl.
  unfold format_operator_result, format_operator_result_lines. rewrite Hp.
  destruct (active_fqdns report) as [|fqdn_data rest] eqn:E; [congruence|].
  cbn [mbind result_bind]. rewrite shown_lines_closed by lia.
  rewrite Z.sub_0_r. reflexivity.
Qed.

Lemma result_lists_first_hosts_witness :
  let report :=
    mk_infrastructure "Example Mobile" [] 3
      [mk_host_entry "epdg.example" ["192.0.2.7"] true;
       mk_host_entry "ims.example" ["192.0.2.8"] true] 12 in
  exists text, format_operator_result report 1 true = Returned text.
Proof.
  intros report.
  pose proof (result_lists_first_hosts report 1 true) as H.
  eexists. apply H; [reflexivity | discriminate | lia].
Defined.
End FormatterSpec.
